(** * Request lifecycle of the two HTTP wrappers

    A shallow embedding of [tts/api_server.py] (the synthesis service) and
    [whisper/app.py] (the transcription service), and the properties of
    their request handlers.

    Conventions of the embedding.
    - A Python [str] is the [string] of its UTF-8 bytes; [len] counts its
      code points.
    - A Python [float] is the rational it denotes (type [Q]); the values
      NaN and infinity are outside the model.  [round(x, n)] is decimal
      rounding to [n] places, ties to even, of the exact value.
    - A handler is a computation in a state-and-exception monad [M W]:
      the state [W] carries the process globals, the clock, the files on
      disk and the log of calls made to the model runtime.
    - The model runtimes (the TTS engine, the speech recogniser), the
      audio encoder and the operating system are records of functions:
      what each call returns or raises is theirs to choose. *)

From Stdlib Require Import QArith Qround Lqa Ascii String Sorted.
From stdpp Require Import gmap strings list pretty.

Local Open Scope string_scope.
Local Open Scope Z_scope.

(** ** Python exceptions and the handler monad *)

Module Py.

(** The exceptions the handlers distinguish: FastAPI's [HTTPException] and
    every other subclass of [Exception], of which only [str(e)] is used. *)
Inductive PyExc : Type :=
  | HTTPException (status_code : Z) (detail : string)
  | Exception (msg : string).

(** [str(e)] for an exception that is not an [HTTPException]; the text a
    library call raised with. *)
Definition exn := string.

Definition result (A : Type) : Type := (exn + A)%type.

Section Monad.
Context {W : Type}.

Definition M (A : Type) : Type := W -> (PyExc + A) * W.

Definition ret {A} (a : A) : M A := fun w => (inr a, w).

Definition raise {A} (e : PyExc) : M A := fun w => (inl e, w).

Definition bind {A B} (c : M A) (k : A -> M B) : M B :=
  fun w =>
    match c w with
    | (inl e, w') => (inl e, w')
    | (inr a, w') => k a w'
    end.

Definition get : M W := fun w => (inr w, w).

Definition modify (f : W -> W) : M unit := fun w => (inr tt, f w).

(** [try: c except <any> as e: h e] *)
Definition try_except {A} (c : M A) (h : PyExc -> M A) : M A :=
  fun w =>
    match c w with
    | (inl e, w') => h e w'
    | (inr a, w') => (inr a, w')
    end.

(** [try: c finally: f].  The [finally] block always runs; when it raises,
    its exception replaces the outcome of [c]. *)
Definition try_finally {A} (c : M A) (f : M unit) : M A :=
  fun w =>
    match c w with
    | (r, w') =>
        match f w' with
        | (inl e, w'') => (inl e, w'')
        | (inr _, w'') => (r, w'')
        end
    end.

(** Lift the outcome of a library call: a raised exception becomes an
    ordinary [Exception]. *)
Definition lift {A} (r : result A) : M A :=
  match r with
  | inl msg => raise (Exception msg)
  | inr a => ret a
  end.
End Monad.

Arguments M : clear implicits.

Declare Scope py_scope.
Delimit Scope py_scope with py.
Notation "x <- c ;; k" := (bind c (fun x => k))
  (at level 100, c at next level, right associativity) : py_scope.
Notation "c ;;; k" := (bind c (fun _ => k))
  (at level 100, right associativity) : py_scope.

(** A field with a default: the supplied value, else the default. *)
Definition field_or {A} (supplied : option A) (default : A) : A :=
  match supplied with
  | Some v => v
  | None => default
  end.

(** A byte that continues a multi-byte UTF-8 sequence: [10xxxxxx]. *)
Definition is_continuation (c : ascii) : bool :=
  let n := N_of_ascii c in
  ((128 <=? n) && (n <? 192))%N.

(** The number of code points of a string: every byte that does not
    continue a sequence starts one. *)
Fixpoint code_points (s : string) : nat :=
  match s with
  | EmptyString => O
  | String c s' => if is_continuation c then code_points s' else S (code_points s')
  end.

(** [len(s)] *)
Definition len (s : string) : Z := Z.of_nat (code_points s).

(** [a or b] on an optional string: [None] and [""] are falsy. *)
Definition or_default (a : option string) (b : string) : string :=
  match a with
  | Some s => if String.eqb s "" then b else s
  | None => b
  end.

(** [os.getenv(name, default)] *)
Definition getenv (env : gmap string string) (name default : string) : string :=
  match env !! name with
  | Some v => v
  | None => default
  end.

(** [sep.join(parts)] *)
Fixpoint join (sep : string) (parts : list string) : string :=
  match parts with
  | [] => ""
  | [p] => p
  | p :: rest => p ++ sep ++ join sep rest
  end.

(** Rounding to the nearest integer, ties to even. *)
Definition round_half_even (x : Q) : Z :=
  let f := Qfloor x in
  match (x - inject_Z f ?= 1 # 2)%Q with
  | Lt => f
  | Gt => f + 1
  | Eq => if Z.even f then f else f + 1
  end.

(** [round(x, ndigits)] *)
Definition round (x : Q) (ndigits : nat) : Q :=
  let p := 10 ^ Z.of_nat ndigits in
  (inject_Z (round_half_even (x * inject_Z p)) / inject_Z p)%Q.

End Py.

Import Py.
Local Open Scope py_scope.

(** ** The synthesis service, [tts/api_server.py] *)

Module Tts.

(** What the service takes from outside the repository: the process
    environment, the Python formatting built-ins and the WAV encoder. *)
Class Host := {
  environ : gmap string string;
  (** [_start_time], the clock reading taken when the module is imported *)
  _start_time : Q;
  (** [repr(s)] of a string, as an f-string renders the items of a list *)
  repr_str : string -> string;
  (** [f"{x:.nf}"] *)
  format_f : nat -> Q -> string;
  (** [sf.write(buffer, audio, samplerate, format="WAV")]: the bytes left in
      the buffer, or the exception raised *)
  sf_write : list Q -> Z -> result (list Z);
}.

Section Service.
Context `{Host}.

(** *** Configuration from environment *)
Definition BACKBONE_REPO : string := getenv environ "BACKBONE_REPO" "pnnbao-ump/VieNeu-TTS".
Definition CODEC_REPO : string := getenv environ "CODEC_REPO" "neuphonic/distill-neucodec".
Definition BACKBONE_DEVICE : string := getenv environ "BACKBONE_DEVICE" "cuda".
Definition CODEC_DEVICE : string := getenv environ "CODEC_DEVICE" "cuda".
Definition DEFAULT_VOICE : string := getenv environ "DEFAULT_VOICE" "Doan".

(** *** The model handle *)

(** The dictionary [get_preset_voice] returns: keys ["codes"] and ["text"],
    either of which may be absent. *)
Record VoiceData := {
  vd_codes : option (list Z);
  vd_text : option string;
}.

(** A loaded [FastVieNeuTTS]: what each of its methods answers.
    [list_preset_voices] yields [(description, id)] pairs. *)
Record FastVieNeuTTS := {
  presets : list (string * string);
  preset_voice : string -> result VoiceData;
  run_infer : string -> list Z -> string -> Q -> Z -> result (option (list Q));
}.

(** Calls that reached the model handle, most recent last. *)
Inductive Call : Type :=
  | CallListPresetVoices
  | CallGetPresetVoice (voice_id : string)
  | CallInfer (text : string) (ref_codes : list Z) (ref_text : string)
              (temperature : Q) (max_chars : Z)
  | CallClose.

Inductive LogRecord : Type :=
  | LogInfo (msg : string)
  | LogError (msg : string).

(** The process state: the global [tts], the clock, and what has been
    observed so far. *)
Record World := {
  tts : option FastVieNeuTTS;
  clock : nat -> Q;
  ticks : nat;
  calls : list Call;
  logs : list LogRecord;
}.

Definition set_tts (t : option FastVieNeuTTS) (w : World) : World :=
  {| tts := t; clock := clock w; ticks := ticks w; calls := calls w; logs := logs w |}.

Definition record_call (c : Call) (w : World) : World :=
  {| tts := tts w; clock := clock w; ticks := ticks w;
     calls := calls w ++ [c]; logs := logs w |}.

Definition record_log (r : LogRecord) (w : World) : World :=
  {| tts := tts w; clock := clock w; ticks := ticks w;
     calls := calls w; logs := logs w ++ [r] |}.

Definition tick (w : World) : World :=
  {| tts := tts w; clock := clock w; ticks := S (ticks w);
     calls := calls w; logs := logs w |}.

(** [time.time()] *)
Definition time : M World Q :=
  w <- get ;; modify tick ;;; ret (clock w (ticks w)).

Definition logger_info (msg : string) : M World unit := modify (record_log (LogInfo msg)).
Definition logger_error (msg : string) : M World unit := modify (record_log (LogError msg)).

(** The three methods of the handle the service calls, on a handle whose
    enumeration of the presets returns. *)
Definition list_preset_voices (t : FastVieNeuTTS) : M World (list (string * string)) :=
  modify (record_call CallListPresetVoices) ;;; ret (presets t).

Definition get_preset_voice (t : FastVieNeuTTS) (voice_id : string) : M World VoiceData :=
  modify (record_call (CallGetPresetVoice voice_id)) ;;; lift (preset_voice t voice_id).

Definition infer (t : FastVieNeuTTS) (text : string) (ref_codes : list Z)
    (ref_text : string) (temperature : Q) (max_chars : Z) : M World (option (list Q)) :=
  modify (record_call (CallInfer text ref_codes ref_text temperature max_chars)) ;;;
  lift (run_infer t text ref_codes ref_text temperature max_chars).

(** [d[key]] on the voice dictionary: a missing key raises [KeyError(key)],
    whose [str] is the [repr] of the key. *)
Definition getitem {A} (key : string) (field : option A) : M World A :=
  match field with
  | Some v => ret v
  | None => raise (Exception (repr_str key))
  end.

(** [lifespan], the part before [yield]: it loads the model into the
    global. *)
Definition lifespan_startup (load : result FastVieNeuTTS) : M World unit :=
  logger_info "Loading VieNeu-TTS model (LMDeploy optimized)..." ;;;
  logger_info ("   Backbone: " ++ BACKBONE_REPO) ;;;
  logger_info ("   Codec:    " ++ CODEC_REPO) ;;;
  logger_info ("   Device:   " ++ BACKBONE_DEVICE) ;;;
  t <- lift load ;;
  modify (set_tts (Some t)) ;;;
  logger_info "Model loaded with LMDeploy optimizations!".

(** *** Request / Response models *)

Record TTSRequest := {
  text : string;
  voice : option string;
  temperature : Q;
  max_chars_chunk : Z;
  format : string;
}.

(** The JSON body before validation: any field may be missing. *)
Record Body := {
  body_text : option string;
  body_voice : option string;
  body_temperature : option Q;
  body_max_chars_chunk : option Z;
  body_format : option string;
}.

(** The constraints of the [Field] declarations of [TTSRequest]:
    [text] is required with [min_length=1, max_length=5000];
    [temperature] defaults to [1.0] with [ge=0.1, le=1.5];
    [max_chars_chunk] defaults to [256] with [ge=64, le=512]. *)
Definition parse_TTSRequest (b : Body) : option TTSRequest :=
  match body_text b with
  | None => None
  | Some t =>
      let temp := field_or (body_temperature b) 1%Q in
      let mcc := field_or (body_max_chars_chunk b) 256 in
      if (1 <=? len t) && (len t <=? 5000)
         && Qle_bool (1 # 10) temp && Qle_bool temp (3 # 2)
         && (64 <=? mcc) && (mcc <=? 512)
      then Some {| text := t; voice := body_voice b; temperature := temp;
                   max_chars_chunk := mcc; format := field_or (body_format b) "wav" |}
      else None
  end.

Record VoiceInfo := {
  id : string;
  description : string;
  ref_text : string;
}.

Record HealthResponse := {
  status : string;
  model : string;
  default_voice : string;
  uptime_seconds : Q;
}.

Record StreamingResponse := {
  content : list Z;
  media_type : string;
  headers : list (string * string);
}.

(** *** Endpoints *)

(** [GET /api/health] *)
Definition health : M World HealthResponse :=
  w <- get ;;
  now <- time ;;
  ret {| status := match tts w with Some _ => "ok" | None => "loading" end;
         model := BACKBONE_REPO;
         default_voice := DEFAULT_VOICE;
         uptime_seconds := round (now - _start_time) 1 |}.

(** The body of the [for desc, vid in tts.list_preset_voices()] loop of
    [list_voices], appending to [voices]. *)
Fixpoint list_voices_loop (t : FastVieNeuTTS) (items : list (string * string))
    (voices : list VoiceInfo) : M World (list VoiceInfo) :=
  match items with
  | [] => ret voices
  | (desc, vid) :: rest =>
      ref_text <- try_except
                    (voice_data <- get_preset_voice t vid ;;
                     ret (field_or (vd_text voice_data) ""))
                    (fun _ => ret "") ;;
      list_voices_loop t rest
        (voices ++ [{| id := vid; description := desc; ref_text := ref_text |}])
  end.

(** [GET /api/voices] *)
Definition list_voices : M World (list VoiceInfo) :=
  w <- get ;;
  match tts w with
  | None => raise (HTTPException 503 "Model not loaded yet")
  | Some t =>
      items <- list_preset_voices t ;;
      list_voices_loop t items []
  end.

(** [repr] of a list of strings, as [f"{available_ids}"] renders it. *)
Definition repr_list (l : list string) : string :=
  "[" ++ join ", " (map repr_str l) ++ "]".

(** [x in l] on a list of strings *)
Definition contains (l : list string) (x : string) : bool :=
  existsb (String.eqb x) l.

(** [a / b] on floats; the text of the [ZeroDivisionError] is the one
    CPython gives for a float divisor. *)
Definition truediv (a b : Q) : M World Q :=
  if Qeq_bool b 0 then raise (Exception "float division by zero")
  else ret (a / b)%Q.

(** The [try] block of [synthesize]. *)
Definition synthesize_try (t : FastVieNeuTTS) (req : TTSRequest) (voice_id : string)
    (start_time : Q) : M World StreamingResponse :=
  voice_data <- get_preset_voice t voice_id ;;
  ref_codes <- getitem "codes" (vd_codes voice_data) ;;
  ref_text <- getitem "text" (vd_text voice_data) ;;
  audio_wav <- infer t (text req) ref_codes ref_text (temperature req) (max_chars_chunk req) ;;
  match audio_wav with
  | None => raise (HTTPException 500 "Failed to generate audio")
  | Some [] => raise (HTTPException 500 "Failed to generate audio")
  | Some wav =>
      buffer <- lift (sf_write wav 24000) ;;
      now <- time ;;
      let process_time := (now - start_time)%Q in
      let duration := (inject_Z (Z.of_nat (length wav)) / 24000)%Q in
      rtf <- truediv duration process_time ;;
      logger_info ("TTS: voice=" ++ voice_id
                   ++ ", text_len=" ++ pretty (len (text req))
                   ++ ", audio=" ++ format_f 2 duration
                   ++ "s, time=" ++ format_f 2 process_time
                   ++ "s, rtf=" ++ format_f 2 rtf ++ "x") ;;;
      ret {| content := buffer;
             media_type := "audio/wav";
             headers := [("Content-Disposition", "attachment; filename=speech.wav");
                         ("X-Process-Time", format_f 3 process_time);
                         ("X-Audio-Duration", format_f 3 duration)] |}
  end.

(** The two [except] clauses of [synthesize]. *)
Definition synthesize_except (e : PyExc) : M World StreamingResponse :=
  match e with
  | HTTPException _ _ => raise e
  | Exception msg =>
      logger_error ("TTS error: " ++ msg) ;;;
      raise (HTTPException 500 ("Synthesis failed: " ++ msg))
  end.

(** [POST /api/tts], the handler: it receives a validated [TTSRequest]. *)
Definition synthesize (req : TTSRequest) : M World StreamingResponse :=
  w <- get ;;
  match tts w with
  | None => raise (HTTPException 503 "Model not loaded yet")
  | Some t =>
      let voice_id := or_default (voice req) DEFAULT_VOICE in
      items <- list_preset_voices t ;;
      let available_ids := map snd items in
      if negb (contains available_ids voice_id) then
        raise (HTTPException 400
                 ("Voice '" ++ voice_id ++ "' not found. Available: "
                  ++ repr_list available_ids))
      else
        start_time <- time ;;
        try_except (synthesize_try t req voice_id start_time) synthesize_except
  end.

(** [POST /api/tts], the route: the framework builds the [TTSRequest] from
    the body and answers 422 itself when the body does not satisfy the
    field constraints; the handler runs only on a valid request. *)
Definition post_api_tts (b : Body) : M World StreamingResponse :=
  match parse_TTSRequest b with
  | None => raise (HTTPException 422 "Unprocessable Entity")
  | Some req => synthesize req
  end.

(** The number of [infer] calls in a call log. *)
Definition is_infer (c : Call) : bool :=
  match c with
  | CallInfer _ _ _ _ _ => true
  | _ => false
  end.

Definition infer_calls (w : World) : nat := length (filter is_infer (calls w)).

End Service.

(** The HTTP status a handler outcome is answered with: 200 for a returned
    value, the status of an [HTTPException], 500 for any other exception. *)
Definition status_of {A} (r : PyExc + A) : Z :=
  match r with
  | inr _ => 200
  | inl (HTTPException code _) => code
  | inl (Exception _) => 500
  end.

End Tts.

(** ** The transcription service, [whisper/app.py] *)

Module Whisper.

(** What the service takes from outside the repository: the process
    environment, Python built-ins, and the operating system's answers to the
    file operations of a request. *)
Class Host := {
  environ : gmap string string;
  _start_time : Q;
  (** [s.strip()] *)
  strip : string -> string;
  (** [repr(s)] of a string *)
  repr_str : string -> string;
  (** [f"{x:.nf}"] *)
  format_f : nat -> Q -> string;
  (** [os.path.splitext(p)[1]] *)
  splitext_ext : string -> string;
  (** the path [tempfile] picks for a new file with this suffix, or the
      exception raised when none can be created *)
  tmp_name : string -> result string;
  (** whether writing these bytes to the file at this path raises *)
  tmp_write_error : string -> list Z -> option exn;
}.

(** *** The model *)

(** A segment as the recogniser yields it. *)
Record Segment := {
  start : Q;
  end_ : Q;
  text : string;
}.

Record TranscriptionInfo := {
  language : string;
  language_probability : Q;
  duration : Q;
}.

(** The lazily produced sequence [model.transcribe] returns: the segments
    iteration yields, and the exception, if any, that iteration raises
    after them. *)
Record Segments := {
  yielded : list Segment;
  failure : option exn;
}.

(** A loaded [WhisperModel]: what [transcribe] answers for the bytes of the
    file at [audio_path] ([None] when there is no such file), the language
    and the task. *)
Record WhisperModel := {
  run_transcribe : option (list Z) -> option string -> string ->
                   result (Segments * TranscriptionInfo);
}.

Inductive Call : Type :=
  | CallTranscribe (audio_path : string) (language : option string) (task : string)
                   (vad_filter : bool) (min_silence_duration_ms : Z).

Inductive LogRecord : Type :=
  | LogInfo (msg : string)
  | LogError (msg : string).

(** The process state: the global [model], the files on disk (path to
    bytes), the clock, and what has been observed so far. *)
Record World := {
  model : WhisperModel;
  files : gmap string (list Z);
  clock : nat -> Q;
  ticks : nat;
  calls : list Call;
  logs : list LogRecord;
}.

Definition set_files (f : gmap string (list Z)) (w : World) : World :=
  {| model := model w; files := f; clock := clock w; ticks := ticks w;
     calls := calls w; logs := logs w |}.

Definition record_call (c : Call) (w : World) : World :=
  {| model := model w; files := files w; clock := clock w; ticks := ticks w;
     calls := calls w ++ [c]; logs := logs w |}.

Definition record_log (r : LogRecord) (w : World) : World :=
  {| model := model w; files := files w; clock := clock w; ticks := ticks w;
     calls := calls w; logs := logs w ++ [r] |}.

Definition tick (w : World) : World :=
  {| model := model w; files := files w; clock := clock w; ticks := S (ticks w);
     calls := calls w; logs := logs w |}.

(** An entry of the ["segments"] list of a response. *)
Record SegmentDict := {
  d_start : Q;
  d_end : Q;
  d_text : string;
}.

(** The JSON object [POST /api/transcribe] returns. *)
Record Transcription := {
  r_text : string;
  r_segments : list SegmentDict;
  r_language : string;
  r_language_probability : Q;
  r_duration : Q;
  r_process_time : Q;
}.

Record Health := {
  h_status : string;
  h_model : string;
  h_device : string;
  h_uptime_seconds : Q;
}.

(** The uploaded file: its name, and what [await file.read()] gives. *)
Record UploadFile := {
  filename : option string;
  read : result (list Z);
}.

Section Service.
Context `{Host}.

(** *** Config *)
Definition MODEL_SIZE : string := getenv environ "WHISPER_MODEL" "medium".
Definition DEVICE : string := getenv environ "WHISPER_DEVICE" "cuda".
Definition COMPUTE_TYPE : string := getenv environ "WHISPER_COMPUTE" "float16".

(** [time.time()] *)
Definition time : M World Q :=
  w <- get ;; modify tick ;;; ret (clock w (ticks w)).

Definition logger_info (msg : string) : M World unit := modify (record_log (LogInfo msg)).
Definition logger_error (msg : string) : M World unit := modify (record_log (LogError msg)).

(** [model.transcribe(audio_path, language=, task=, vad_filter=True,
    vad_parameters=dict(min_silence_duration_ms=500))] *)
Definition model_transcribe (audio_path : string) (lang : option string) (task : string)
    : M World (Segments * TranscriptionInfo) :=
  modify (record_call (CallTranscribe audio_path lang task true 500)) ;;;
  w <- get ;;
  lift (run_transcribe (model w) (files w !! audio_path) lang task).

(** *** Common transcription logic *)

(** The [for seg in segments] loop of [do_transcribe] over the segments
    iteration yields, appending to [result_segments] and [full_text]. *)
Fixpoint do_transcribe_loop (segments : list Segment)
    (result_segments : list SegmentDict) (full_text : list string)
    : list SegmentDict * list string :=
  match segments with
  | [] => (result_segments, full_text)
  | seg :: rest =>
      do_transcribe_loop rest
        (result_segments ++ [{| d_start := round (start seg) 2;
                                d_end := round (end_ seg) 2;
                                d_text := strip (text seg) |}])
        (full_text ++ [strip (text seg)])
  end.

Definition do_transcribe (audio_path : string) (language : string) (task : string)
    : M World (list SegmentDict * list string * TranscriptionInfo) :=
  let lang := if String.eqb language "auto" then None else Some language in
  r <- model_transcribe audio_path lang task ;;
  let '(segments, info) := r in
  let '(result_segments, full_text) := do_transcribe_loop (yielded segments) [] [] in
  match failure segments with
  | Some msg => raise (Exception msg)
  | None => ret (result_segments, full_text, info)
  end.

(** *** API routes *)

(** [GET /api/health] *)
Definition health : M World Health :=
  now <- time ;;
  ret {| h_status := "ok";
         h_model := MODEL_SIZE;
         h_device := DEVICE;
         h_uptime_seconds := round (now - _start_time) 1 |}.

(** [tempfile.NamedTemporaryFile(delete=False, suffix=suffix)]: an empty
    file now exists at the returned path. *)
Definition NamedTemporaryFile (suffix : string) : M World string :=
  path <- lift (tmp_name suffix) ;;
  modify (fun w => set_files (<[path := []]> (files w)) w) ;;;
  ret path.

(** [tmp.write(content)] *)
Definition tmp_write (path : string) (content : list Z) : M World unit :=
  match tmp_write_error path content with
  | Some msg => raise (Exception msg)
  | None => modify (fun w => set_files (<[path := content]> (files w)) w)
  end.

(** [os.unlink(path)] *)
Definition os_unlink (path : string) : M World unit :=
  w <- get ;;
  match files w !! path with
  | Some _ => modify (fun w => set_files (delete path (files w)) w)
  | None => raise (Exception ("[Errno 2] No such file or directory: " ++ repr_str path))
  end.

(** [str(e)]; an [HTTPException] prints as its status and detail. *)
Definition str_exc (e : PyExc) : string :=
  match e with
  | Exception msg => msg
  | HTTPException code detail => pretty code ++ ": " ++ detail
  end.

(** The [try] block of [transcribe_api]. *)
Definition transcribe_api_try (tmp_path language task : string) : M World Transcription :=
  t0 <- time ;;
  r <- do_transcribe tmp_path language task ;;
  let '(result_segments, full_text, info) := r in
  t1 <- time ;;
  let elapsed := (t1 - t0)%Q in
  logger_info ("STT: lang=" ++ Whisper.language info
               ++ ", audio=" ++ format_f 1 (duration info)
               ++ "s, time=" ++ format_f 1 elapsed
               ++ "s, segments=" ++ pretty (length result_segments)) ;;;
  ret {| r_text := join " " full_text;
         r_segments := result_segments;
         r_language := Whisper.language info;
         r_language_probability := round (language_probability info) 3;
         r_duration := round (duration info) 2;
         r_process_time := round elapsed 2 |}.

(** The [except Exception as e] clause of [transcribe_api]. *)
Definition transcribe_api_except (e : PyExc) : M World Transcription :=
  logger_error ("STT error: " ++ str_exc e) ;;;
  raise (HTTPException 500 (str_exc e)).

(** [POST /api/transcribe], the handler.  [language] and [task] are what
    the framework binds to the parameters; [None] stands for a parameter it
    leaves to the declared default. *)
Definition transcribe_api (file : UploadFile) (language task : option string)
    : M World Transcription :=
  let language := field_or language "vi" in
  let task := field_or task "transcribe" in
  let suffix := splitext_ext (or_default (filename file) "audio.wav") in
  tmp_path <- NamedTemporaryFile suffix ;;
  content <- lift (read file) ;;
  tmp_write tmp_path content ;;;
  try_finally
    (try_except (transcribe_api_try tmp_path language task) transcribe_api_except)
    (os_unlink tmp_path).

(** The framework's binding of an optional form field: a field that is
    absent, or present with an empty value, is left to the default the
    parameter declares. *)
Definition form_field (value : option string) : option string :=
  match value with
  | Some s => if String.eqb s "" then None else Some s
  | None => None
  end.

(** [POST /api/transcribe], the route: [language] and [task] are the form
    fields as the request carries them, [None] for a field it omits; the
    framework binds them and calls the handler. *)
Definition post_api_transcribe (file : UploadFile) (language task : option string)
    : M World Transcription :=
  transcribe_api file (form_field language) (form_field task).

End Service.
End Whisper.

(** ** The Gradio callback of the transcription service *)

Module WhisperUi.
Import Whisper.

Section Ui.
Context `{Host}.

(** [f"{x:.0%}"] *)
Variable format_percent : Q -> string.

(** ["\n"] *)
Definition newline : string := String (ascii_of_nat 10) "".

(** [s * n] *)
Fixpoint repeat_str (s : string) (n : nat) : string :=
  match n with
  | O => ""
  | S n' => s ++ repeat_str s n'
  end.

(** [transcribe_ui].  [audio_path] is [None] when nothing was uploaded or
    recorded; [language] and [task] are [None] when the caller leaves them
    to their defaults. *)
Definition transcribe_ui (audio_path : option string) (language task : option string)
    : M World (string * string) :=
  let language := field_or language "vi" in
  let task := field_or task "transcribe" in
  match audio_path with
  | None => ret ("⚠️ Vui lòng upload hoặc ghi âm audio.", "")
  | Some audio_path =>
      start <- time ;;
      r <- do_transcribe audio_path language task ;;
      let '(result_segments, full_text, info) := r in
      now <- time ;;
      let elapsed := (now - start)%Q in
      let lines :=
        map (fun s => "[" ++ format_f 1 (d_start s) ++ "s → "
                      ++ format_f 1 (d_end s) ++ "s]  " ++ d_text s)
            result_segments in
      let header :=
        "🎯 Ngôn ngữ: " ++ Whisper.language info
        ++ " (xác suất: " ++ format_percent (language_probability info) ++ ")" ++ newline
        ++ "⏱️ Thời gian: " ++ format_f 1 elapsed
        ++ "s | Độ dài audio: " ++ format_f 1 (duration info) ++ "s" ++ newline
        ++ repeat_str "─" 50 ++ newline in
      ret (header ++ join newline lines, join " " full_text)
  end.

End Ui.
End WhisperUi.

(** ** The synthesis service on a handle whose calls outside the [try] may raise *)

Module TtsFaults.
Import Tts.

(** [Tts.FastVieNeuTTS] describes a handle whose [list_preset_voices] and
    [close] return.  Here is what the two raise when they do not: both are
    called unprotected, [list_preset_voices] by [list_voices] and by
    [synthesize] before its [try], [close] by the shut-down part of
    [lifespan]. *)
Record Faults := {
  list_preset_voices_error : option exn;
  close_error : option exn;
}.

Section Service.
Context `{Host}.
Variable faults : Faults.

(** [tts.list_preset_voices()] *)
Definition list_preset_voices (t : FastVieNeuTTS) : M World (list (string * string)) :=
  modify (record_call CallListPresetVoices) ;;;
  match list_preset_voices_error faults with
  | Some msg => raise (Exception msg)
  | None => ret (presets t)
  end.

(** [tts.close()] *)
Definition close (t : FastVieNeuTTS) : M World unit :=
  modify (record_call CallClose) ;;;
  match close_error faults with
  | Some msg => raise (Exception msg)
  | None => ret tt
  end.

(** [lifespan], the part after [yield]. *)
Definition lifespan_shutdown : M World unit :=
  logger_info "Shutting down, releasing model..." ;;;
  w <- get ;;
  match tts w with
  | Some t => close t
  | None => ret tt
  end.

(** [GET /api/voices] *)
Definition list_voices : M World (list VoiceInfo) :=
  w <- get ;;
  match tts w with
  | None => raise (HTTPException 503 "Model not loaded yet")
  | Some t =>
      items <- list_preset_voices t ;;
      list_voices_loop t items []
  end.

(** [POST /api/tts], the handler. *)
Definition synthesize (req : TTSRequest) : M World StreamingResponse :=
  w <- get ;;
  match tts w with
  | None => raise (HTTPException 503 "Model not loaded yet")
  | Some t =>
      let voice_id := or_default (voice req) DEFAULT_VOICE in
      items <- list_preset_voices t ;;
      let available_ids := map snd items in
      if negb (contains available_ids voice_id) then
        raise (HTTPException 400
                 ("Voice '" ++ voice_id ++ "' not found. Available: "
                  ++ repr_list available_ids))
      else
        start_time <- time ;;
        try_except (synthesize_try t req voice_id start_time) synthesize_except
  end.

End Service.
End TtsFaults.

(** ** Concrete hosts, models and requests *)

Module Samples.

(** [repr] of a string with no quote, backslash or control character. *)
Definition repr_plain (s : string) : string := "'" ++ s ++ "'".

Fixpoint zeros (n : nat) : string :=
  match n with
  | O => ""
  | S n' => "0" ++ zeros n'
  end.

(** Fixed-point formatting with [n] decimals. *)
Definition fixed (n : nat) (q : Q) : string :=
  let p := 10 ^ Z.of_nat n in
  let r := round_half_even (q * inject_Z p) in
  let a := Z.abs r in
  let frac := pretty (a mod p) in
  (if r <? 0 then "-" else "") ++ pretty (a / p)
  ++ match n with
     | O => ""
     | _ => "." ++ zeros (n - String.length frac) ++ frac
     end.

Definition is_space (c : ascii) : bool :=
  let n := N_of_ascii c in
  ((9 <=? n) && (n <=? 13) || (28 <=? n) && (n <=? 32))%N.

Fixpoint lstrip (s : string) : string :=
  match s with
  | String c s' => if is_space c then lstrip s' else s
  | EmptyString => EmptyString
  end.

Definition strip_ascii (s : string) : string :=
  String.rev (lstrip (String.rev (lstrip s))).

Fixpoint basename_rev (rev_path : list ascii) : list ascii :=
  match rev_path with
  | [] => []
  | c :: rest => if Ascii.eqb c "/" then [] else c :: basename_rev rest
  end.

(** The extension of a path, scanning its characters from the last one;
    [ext] holds the characters after the candidate dot.  A name made of
    dots up to the candidate one has no extension. *)
Fixpoint splitext_scan (rev_path : list ascii) (ext : list ascii) : list ascii :=
  match rev_path with
  | [] => []
  | c :: rest =>
      if Ascii.eqb c "/" then []
      else if Ascii.eqb c "." then
        if forallb (fun d => Ascii.eqb d ".") (basename_rev rest) then [] else c :: ext
      else splitext_scan rest (c :: ext)
  end.

Definition splitext_posix (p : string) : string :=
  string_of_list_ascii (splitext_scan (rev (list_ascii_of_string p)) []).

(** A synthesis host with an empty environment and an encoder that emits
    one byte per sample. *)
Definition tts_host : Tts.Host :=
  {| Tts.environ := ∅;
     Tts._start_time := 0;
     Tts.repr_str := repr_plain;
     Tts.format_f := fixed;
     Tts.sf_write := fun wav _ => inr (map (fun _ => 0) wav) |}.

Definition doan : Tts.VoiceData :=
  {| Tts.vd_codes := Some [1; 2; 3]; Tts.vd_text := Some "xin chao" |}.

(** An engine with two presets; [Vinh] has no stored metadata.  Inference
    gives one sample per character, nothing for the text ["-"], and raises on
    the text ["!"]. *)
Definition engine : Tts.FastVieNeuTTS :=
  {| Tts.presets := [("Doan (nu)", "Doan"); ("Vinh (nam)", "Vinh")];
     Tts.preset_voice := fun vid =>
       if String.eqb vid "Doan" then inr doan else inl "voice file missing";
     Tts.run_infer := fun text _ _ _ _ =>
       if String.eqb text "!" then inl "CUDA out of memory"
       else if String.eqb text "-" then inr (Some [])
       else inr (Some (map (fun _ => 0%Q) (list_ascii_of_string text))) |}.

Definition tts_world (t : option Tts.FastVieNeuTTS) : Tts.World :=
  {| Tts.tts := t; Tts.clock := fun n => inject_Z (Z.of_nat n);
     Tts.ticks := 0; Tts.calls := []; Tts.logs := [] |}.

Definition request (text : string) (voice : option string) : Tts.TTSRequest :=
  {| Tts.text := text; Tts.voice := voice; Tts.temperature := 1;
     Tts.max_chars_chunk := 256; Tts.format := "wav" |}.

Definition body (text : string) (temperature : Q) : Tts.Body :=
  {| Tts.body_text := Some text; Tts.body_voice := None;
     Tts.body_temperature := Some temperature;
     Tts.body_max_chars_chunk := None; Tts.body_format := None |}.

(** A transcription host whose disk refuses writes of more than four
    bytes. *)
Definition whisper_host : Whisper.Host :=
  {| Whisper.environ := ∅;
     Whisper._start_time := 0;
     Whisper.strip := strip_ascii;
     Whisper.repr_str := repr_plain;
     Whisper.format_f := fixed;
     Whisper.splitext_ext := splitext_posix;
     Whisper.tmp_name := fun suffix => inr ("/tmp/tmpk3x9" ++ suffix);
     Whisper.tmp_write_error := fun _ content =>
       if (4 <? length content)%nat then Some "[Errno 28] No space left on device"
       else None |}.

(** A recogniser that hears two segments in any file it can open. *)
Definition recogniser : Whisper.WhisperModel :=
  {| Whisper.run_transcribe := fun audio lang _ =>
       match audio with
       | None => inl "no such file"
       | Some _ =>
           inr ({| Whisper.yielded :=
                     [ {| Whisper.start := 0; Whisper.end_ := 1234 # 1000;
                          Whisper.text := " xin chao" |};
                       {| Whisper.start := 15 # 10; Whisper.end_ := 2675 # 1000;
                          Whisper.text := " cac ban " |} ];
                   Whisper.failure := None |},
                {| Whisper.language := field_or lang "vi";
                   Whisper.language_probability := 98765 # 100000;
                   Whisper.duration := 3 |})
       end |}.

Definition whisper_world : Whisper.World :=
  {| Whisper.model := recogniser; Whisper.files := ∅;
     Whisper.clock := fun n => inject_Z (Z.of_nat n);
     Whisper.ticks := 0; Whisper.calls := []; Whisper.logs := [] |}.

Definition upload (content : list Z) : Whisper.UploadFile :=
  {| Whisper.filename := Some "hello.wav"; Whisper.read := inr content |}.

(** What the service answers for a two-byte upload heard by [recogniser]. *)
Definition answer : Whisper.Transcription :=
  {| Whisper.r_text := "xin chao cac ban";
     Whisper.r_segments :=
       [ {| Whisper.d_start := 0 # 100; Whisper.d_end := 123 # 100;
            Whisper.d_text := "xin chao" |};
         {| Whisper.d_start := 150 # 100; Whisper.d_end := 268 # 100;
            Whisper.d_text := "cac ban" |} ];
     Whisper.r_language := "vi";
     Whisper.r_language_probability := 988 # 1000;
     Whisper.r_duration := 300 # 100;
     Whisper.r_process_time := 100 # 100 |}.

(** A preset table whose first voice lacks its codes. *)
Definition engine_without_codes : Tts.FastVieNeuTTS :=
  {| Tts.presets := [("Doan (nu)", "Doan")];
     Tts.preset_voice := fun _ =>
       inr {| Tts.vd_codes := None; Tts.vd_text := Some "xin chao" |};
     Tts.run_infer := fun _ _ _ _ _ => inr None |}.

(** A synthesis host whose encoder refuses every waveform. *)
Definition tts_host_mute : Tts.Host :=
  {| Tts.environ := ∅;
     Tts._start_time := 0;
     Tts.repr_str := repr_plain;
     Tts.format_f := fixed;
     Tts.sf_write := fun _ _ => inl "Error opening buffer: format not recognised" |}.

(** A world whose clock does not advance. *)
Definition tts_frozen_world (t : option Tts.FastVieNeuTTS) : Tts.World :=
  {| Tts.tts := t; Tts.clock := fun _ => 5%Q;
     Tts.ticks := 0; Tts.calls := []; Tts.logs := [] |}.

(** What the service answers for the text ["hi"] spoken by [engine]. *)
Definition speech : Tts.StreamingResponse :=
  {| Tts.content := [0; 0];
     Tts.media_type := "audio/wav";
     Tts.headers := [("Content-Disposition", "attachment; filename=speech.wav");
                     ("X-Process-Time", "1.000");
                     ("X-Audio-Duration", "0.000")] |}.

(** A recogniser that fails on every file. *)
Definition deaf_recogniser : Whisper.WhisperModel :=
  {| Whisper.run_transcribe := fun _ _ _ => inl "CUDA out of memory" |}.

(** A recogniser whose iteration raises after one segment. *)
Definition stuttering_recogniser : Whisper.WhisperModel :=
  {| Whisper.run_transcribe := fun _ lang _ =>
       inr ({| Whisper.yielded :=
                 [ {| Whisper.start := 0; Whisper.end_ := 1;
                      Whisper.text := "xin" |} ];
               Whisper.failure := Some "decoder failed" |},
            {| Whisper.language := field_or lang "vi";
               Whisper.language_probability := 1;
               Whisper.duration := 3 |}) |}.

Definition whisper_world_with (m : Whisper.WhisperModel)
    (files : gmap string (list Z)) : Whisper.World :=
  {| Whisper.model := m; Whisper.files := files;
     Whisper.clock := fun n => inject_Z (Z.of_nat n);
     Whisper.ticks := 0; Whisper.calls := []; Whisper.logs := [] |}.

(** A transcription host on which no temporary file can be created. *)
Definition whisper_host_readonly : Whisper.Host :=
  {| Whisper.environ := ∅;
     Whisper._start_time := 0;
     Whisper.strip := strip_ascii;
     Whisper.repr_str := repr_plain;
     Whisper.format_f := fixed;
     Whisper.splitext_ext := splitext_posix;
     Whisper.tmp_name := fun _ => inl "[Errno 30] Read-only file system";
     Whisper.tmp_write_error := fun _ _ => None |}.

(** A library whose enumeration of the presets raises. *)
Definition broken_enumeration : TtsFaults.Faults :=
  {| TtsFaults.list_preset_voices_error := Some "preset file unreadable";
     TtsFaults.close_error := None |}.

(** A library whose [close] raises. *)
Definition broken_close : TtsFaults.Faults :=
  {| TtsFaults.list_preset_voices_error := None;
     TtsFaults.close_error := Some "engine already released" |}.

(** A text of 2501 characters of two bytes each. *)
Definition accented_text : string := WhisperUi.repeat_str "à" 2501.

(** A percentage without decimals. *)
Definition percent (q : Q) : string := fixed 0 (q * 100) ++ "%".

End Samples.

(** ** Facts about the Python built-ins *)

Module PyFacts.

Lemma round_half_even_bounds (x : Q) :
  Qfloor x <= round_half_even x <= Qfloor x + 1.
Proof.
  unfold round_half_even.
  destruct (x - inject_Z (Qfloor x) ?= 1 # 2)%Q; [destruct (Z.even _) | |]; lia.
Qed.

(** Rounding to the nearest integer never reverses an order. *)
Lemma round_half_even_mono (x y : Q) :
  (x <= y)%Q -> round_half_even x <= round_half_even y.
Proof.
  intros Hxy.
  pose proof (Qfloor_resp_le x y Hxy) as Hfl.
  destruct (Z.eq_dec (Qfloor x) (Qfloor y)) as [Heq | Hne].
  - unfold round_half_even. rewrite <- Heq.
    destruct (Qcompare_spec (x - inject_Z (Qfloor x)) (1 # 2)) as [Hx | Hx | Hx];
      destruct (Qcompare_spec (y - inject_Z (Qfloor x)) (1 # 2)) as [Hy | Hy | Hy];
      try destruct (Z.even (Qfloor x)); try lia; exfalso; lra.
  - pose proof (round_half_even_bounds x). pose proof (round_half_even_bounds y). lia.
Qed.

Lemma pow10_pos (n : nat) : (0 < inject_Z (10 ^ Z.of_nat n))%Q.
Proof.
  replace 0%Q with (inject_Z 0) by reflexivity.
  rewrite <- Zlt_Qlt. apply Z.pow_pos_nonneg; lia.
Qed.

(** [round(x, n)] never reverses an order. *)
Lemma round_mono (n : nat) (x y : Q) :
  (x <= y)%Q -> (round x n <= round y n)%Q.
Proof.
  intros Hxy. unfold round.
  pose proof (pow10_pos n) as Hp.
  apply Qmult_le_compat_r.
  - rewrite <- Zle_Qle. apply round_half_even_mono.
    apply Qmult_le_compat_r; [exact Hxy | apply Qlt_le_weak, Hp].
  - apply Qinv_le_0_compat, Qlt_le_weak, Hp.
Qed.

End PyFacts.

(** ** Properties of the synthesis service *)

Module TtsProofs.
Import Tts.

Lemma append_assoc (a b c : string) : (a ++ b) ++ c = a ++ (b ++ c).
Proof.
  induction a as [| ch a IH]; [reflexivity |].
  change (String ch ((a ++ b) ++ c) = String ch (a ++ (b ++ c))).
  now rewrite IH.
Qed.

(** Every part of a joined string occurs in it. *)
Lemma join_In (sep x : string) (parts : list string) :
  In x parts -> exists pre post, join sep parts = pre ++ x ++ post.
Proof.
  induction parts as [| p rest IH]; intros Hin; [destruct Hin |].
  destruct Hin as [-> | Hin].
  - destruct rest as [| q rest'].
    + exists "", "". clear IH. change (x = x ++ ""). induction x as [| ch x IHx]; [reflexivity |].
      change (String ch x = String ch (x ++ "")). now rewrite <- IHx.
    + exists "", (sep ++ join sep (q :: rest')). reflexivity.
  - destruct (IH Hin) as (pre & post & Heq).
    destruct rest as [| q rest']; [destruct Hin |].
    exists (p ++ sep ++ pre), post.
    change (join sep (p :: q :: rest')) with (p ++ sep ++ join sep (q :: rest')).
    rewrite Heq. now rewrite !append_assoc.
Qed.

Lemma contains_In (l : list string) (x : string) :
  contains l x = true <-> In x l.
Proof.
  unfold contains. rewrite existsb_exists. split.
  - intros (y & Hy & Heq). apply String.eqb_eq in Heq. now subst.
  - intros Hin. exists x. split; [exact Hin | apply String.eqb_refl].
Qed.

Lemma infer_calls_record (c : Call) (w : World) :
  is_infer c = false -> infer_calls (record_call c w) = infer_calls w.
Proof.
  intros Hc. unfold infer_calls, record_call. simpl.
  rewrite filter_app, length_app.
  rewrite filter_cons_False by (rewrite Hc; auto).
  rewrite filter_nil. simpl. lia.
Qed.

Section Service.
Context `{Host}.

(** The handler up to the voice check, for a loaded model. *)
Lemma synthesize_loaded (req : TTSRequest) (w : World) (t : FastVieNeuTTS) :
  tts w = Some t ->
  synthesize req w =
    let voice_id := or_default (voice req) DEFAULT_VOICE in
    let available_ids := map snd (presets t) in
    let w1 := record_call CallListPresetVoices w in
    if contains available_ids voice_id then
      try_except (synthesize_try t req voice_id (clock w (ticks w)))
        synthesize_except (tick w1)
    else
      (inl (HTTPException 400
              ("Voice '" ++ voice_id ++ "' not found. Available: "
               ++ repr_list available_ids)), w1).
Proof.
  intros Ht. unfold synthesize, bind, get. rewrite Ht. simpl.
  destruct (contains _ _); reflexivity.
Qed.

(** C1, as amended: [GET /api/health] always answers, and its status is
    ["ok"] once the model handle exists and ["loading"] until then. *)
Theorem health_status_follows_handle (w : World) :
  exists r w',
    health w = (inr r, w') /\
    status r = match tts w with Some _ => "ok" | None => "loading" end.
Proof.
  unfold health, bind, get, time, modify, ret. simpl.
  eexists _, _. split; reflexivity.
Qed.

(** A resolved voice that is no preset ends the handler at the voice
    check. *)
Lemma synthesize_rejects_unknown (req : TTSRequest) (w : World) (t : FastVieNeuTTS) :
  tts w = Some t ->
  ~ In (or_default (voice req) DEFAULT_VOICE) (map snd (presets t)) ->
  synthesize req w =
    (inl (HTTPException 400
            ("Voice '" ++ or_default (voice req) DEFAULT_VOICE
             ++ "' not found. Available: " ++ repr_list (map snd (presets t)))),
     record_call CallListPresetVoices w).
Proof.
  intros Ht Hnot.
  rewrite (synthesize_loaded req w t Ht). cbv zeta.
  destruct (contains _ _) eqn:Hc; [apply contains_In in Hc; contradiction |].
  reflexivity.
Qed.

(** C3: with the model loaded, a request whose resolved voice is not among
    the preset identifiers is refused with status 400, the detail shows
    every available identifier, and the only call made to the model is the
    enumeration of the presets: [infer] is not invoked. *)
Theorem synthesize_unknown_voice (req : TTSRequest) (w : World) (t : FastVieNeuTTS) :
  tts w = Some t ->
  ~ In (or_default (voice req) DEFAULT_VOICE) (map snd (presets t)) ->
  exists detail w',
    synthesize req w = (inl (HTTPException 400 detail), w') /\
    status_of (fst (synthesize req w)) = 400 /\
    detail = "Voice '" ++ or_default (voice req) DEFAULT_VOICE
             ++ "' not found. Available: " ++ repr_list (map snd (presets t)) /\
    (forall vid, In vid (map snd (presets t)) ->
       exists pre post, detail = pre ++ repr_str vid ++ post) /\
    calls w' = (calls w ++ [CallListPresetVoices])%list /\
    infer_calls w' = infer_calls w.
Proof.
  intros Ht Hnot.
  rewrite (synthesize_rejects_unknown req w t Ht Hnot).
  eexists _, _. split; [reflexivity |].
  split; [reflexivity |]. split; [reflexivity |].
  split; [| split; [reflexivity | now apply infer_calls_record]].
  intros vid Hvid. unfold repr_list.
  destruct (join_In ", " (repr_str vid) (map repr_str (map snd (presets t))))
    as (pre & post & Heq); [now apply in_map |].
  exists ("Voice '" ++ or_default (voice req) DEFAULT_VOICE
          ++ "' not found. Available: " ++ "[" ++ pre), (post ++ "]").
  rewrite Heq. now rewrite !append_assoc.
Qed.

(** The field constraints, as a proposition on the body. *)
Lemma parse_TTSRequest_Some (b : Body) :
  is_Some (parse_TTSRequest b) <->
  (exists t, body_text b = Some t /\ 1 <= len t <= 5000) /\
  (1 # 10 <= field_or (body_temperature b) 1 <= 3 # 2)%Q /\
  64 <= field_or (body_max_chars_chunk b) 256 <= 512.
Proof.
  unfold parse_TTSRequest.
  destruct (body_text b) as [t |].
  - match goal with |- context [if ?c then _ else _] => destruct c eqn:Hc end.
    + repeat (apply andb_prop in Hc; destruct Hc as [Hc ?]).
      repeat match goal with
             | Hq : Qle_bool _ _ = true |- _ => apply Qle_bool_iff in Hq
             end.
      split; [intros _ | intros _; eauto].
      split; [exists t; split; [reflexivity | lia] |].
      split; [tauto | lia].
    + split; [intros [? [=]] |].
      intros ((t' & [= <-] & Hlen) & (Ht1 & Ht2) & Hm).
      apply Qle_bool_iff in Ht1, Ht2.
      rewrite Ht1, Ht2 in Hc.
      assert ((1 <=? len t) = true) as H1 by lia.
      assert ((len t <=? 5000) = true) as H2 by lia.
      assert ((64 <=? field_or (body_max_chars_chunk b) 256) = true) as H3 by lia.
      assert ((field_or (body_max_chars_chunk b) 256 <=? 512) = true) as H4 by lia.
      rewrite H1, H2, H3, H4 in Hc. discriminate.
  - split; [intros [? [=]] | intros ((t & [=] & _) & _)].
Qed.

(** C5: the body of [POST /api/tts] passes validation exactly when its text
    has between 1 and 5000 characters, its temperature (1.0 when omitted)
    lies in [0.1, 1.5] and its chunk size (256 when omitted) lies in
    [64, 512]; a body that does not is answered before the handler runs,
    the process state untouched; the stated boundary values fall on the
    stated sides.  The length is counted in characters, not bytes: a text
    of 2501 two-byte characters is accepted. *)
Theorem tts_request_validation :
  (forall b : Body,
     is_Some (parse_TTSRequest b) <->
     (exists t, body_text b = Some t /\ 1 <= len t <= 5000) /\
     (1 # 10 <= field_or (body_temperature b) 1 <= 3 # 2)%Q /\
     64 <= field_or (body_max_chars_chunk b) 256 <= 512) /\
  (forall (b : Body) (w : World),
     parse_TTSRequest b = None ->
     exists detail, post_api_tts b w = (inl (HTTPException 422 detail), w)) /\
  (forall (b : Body) (req : TTSRequest) (w : World),
     parse_TTSRequest b = Some req -> post_api_tts b w = synthesize req w) /\
  (forall t, len t = 5000 -> is_Some (parse_TTSRequest (Samples.body t 1))) /\
  (forall t, len t = 5001 -> parse_TTSRequest (Samples.body t 1) = None) /\
  is_Some (parse_TTSRequest (Samples.body "a" (1 # 10))) /\
  is_Some (parse_TTSRequest (Samples.body "a" (3 # 2))) /\
  parse_TTSRequest (Samples.body "a" (9 # 100)) = None /\
  parse_TTSRequest (Samples.body "a" (151 # 100)) = None /\
  len Samples.accented_text = 2501 /\
  (5000 < Z.of_nat (String.length Samples.accented_text)) /\
  is_Some (parse_TTSRequest (Samples.body Samples.accented_text 1)).
Proof.
  split; [exact parse_TTSRequest_Some |].
  split; [intros b w Hb; unfold post_api_tts; rewrite Hb; eexists; reflexivity |].
  split; [intros b req w Hb; unfold post_api_tts; now rewrite Hb |].
  split.
  { intros t Ht. apply parse_TTSRequest_Some. simpl.
    split; [exists t; split; [reflexivity | lia] |].
    split; [split; discriminate | lia]. }
  split.
  { intros t Ht.
    destruct (parse_TTSRequest (Samples.body t 1)) as [r |] eqn:Hp; [| reflexivity].
    assert (is_Some (parse_TTSRequest (Samples.body t 1))) as Hs by (rewrite Hp; eauto).
    apply parse_TTSRequest_Some in Hs. simpl in Hs.
    destruct Hs as ((t' & [= <-] & Hlen) & _). lia. }
  split; [vm_compute; eauto |]. split; [vm_compute; eauto |].
  split; [vm_compute; reflexivity |]. split; [vm_compute; reflexivity |].
  split; [vm_compute; reflexivity |]. split; [vm_compute; reflexivity |].
  vm_compute. eauto.
Qed.

(** C6: with the model loaded and a preset voice whose data resolves, a
    null or empty waveform from [infer] and an exception from [infer] both
    end the request with status 500; in the second case the detail carries
    the message of the exception. *)
Theorem synthesize_inference_failure (req : TTSRequest) (w : World) (t : FastVieNeuTTS)
    (vd : VoiceData) (codes : list Z) (rtext : string) :
  tts w = Some t ->
  In (or_default (voice req) DEFAULT_VOICE) (map snd (presets t)) ->
  preset_voice t (or_default (voice req) DEFAULT_VOICE) = inr vd ->
  vd_codes vd = Some codes ->
  vd_text vd = Some rtext ->
  let outcome :=
    run_infer t (text req) codes rtext (temperature req) (max_chars_chunk req) in
  (outcome = inr None \/ outcome = inr (Some []) ->
   exists detail w',
     synthesize req w = (inl (HTTPException 500 detail), w') /\
     status_of (fst (synthesize req w)) = 500) /\
  (forall msg, outcome = inl msg ->
   exists w',
     synthesize req w = (inl (HTTPException 500 ("Synthesis failed: " ++ msg)), w') /\
     status_of (fst (synthesize req w)) = 500).
Proof.
  intros Ht Hin Hvd Hcodes Htext outcome. subst outcome.
  rewrite (synthesize_loaded req w t Ht). cbv zeta.
  apply contains_In in Hin. rewrite Hin.
  unfold try_except, synthesize_try, bind, get_preset_voice, infer, getitem,
    modify, lift, ret, raise.
  cbn [fst snd]. rewrite Hvd. cbn. rewrite Hcodes, Htext. cbn.
  split.
  - intros [Hout | Hout]; rewrite Hout; cbn; eexists _, _; split; reflexivity.
  - intros msg Hout. rewrite Hout. cbn. eexists. split; reflexivity.
Qed.

(** The loop of [list_voices] appends one entry per remaining preset, in
    order, whatever the metadata lookups do. *)
Lemma list_voices_loop_spec (t : FastVieNeuTTS) (items : list (string * string)) :
  forall (voices : list VoiceInfo) (w : World),
  exists w',
    list_voices_loop t items voices w =
      (inr (voices ++
            map (fun p => {| id := snd p; description := fst p;
                             ref_text := match preset_voice t (snd p) with
                                         | inr vd => field_or (vd_text vd) ""
                                         | inl _ => ""
                                         end |}) items)%list, w').
Proof.
  induction items as [| [desc vid] rest IH]; intros voices w.
  - exists w. simpl. now rewrite app_nil_r.
  - cbn [list_voices_loop]. unfold bind at 1.
    unfold try_except, bind, get_preset_voice, modify, lift.
    cbn [fst snd].
    destruct (preset_voice t vid) as [msg | vd] eqn:Hvd; cbn;
      match goal with
      | |- context [list_voices_loop t rest ?vs ?w1] =>
          destruct (IH vs w1) as (w' & ->)
      end;
      exists w'; rewrite <- app_assoc; cbn; now rewrite ?Hvd.
Qed.

(** C8: with the model loaded, [GET /api/voices] answers with one entry per
    preset, in the order of the enumeration, each carrying the identifier and
    description of its preset; the reference text of a preset whose lookup
    raises, or whose data has no text, is the empty string. *)
Theorem list_voices_one_entry_per_preset (w : World) (t : FastVieNeuTTS) :
  tts w = Some t ->
  exists voices w',
    list_voices w = (inr voices, w') /\
    map id voices = map snd (presets t) /\
    map description voices = map fst (presets t) /\
    length voices = length (presets t) /\
    Forall2 (fun v p =>
               id v = snd p /\
               ref_text v = match preset_voice t (snd p) with
                            | inr vd => field_or (vd_text vd) ""
                            | inl _ => ""
                            end) voices (presets t).
Proof.
  intros Ht. unfold list_voices, bind, get. rewrite Ht.
  unfold list_preset_voices, bind, modify, ret.
  destruct (list_voices_loop_spec t (presets t) [] (record_call CallListPresetVoices w))
    as (w' & Hloop).
  eexists _, w'. split; [exact Hloop |].
  cbn [app]. rewrite !map_map, length_map. cbn.
  repeat split. clear Hloop.
  induction (presets t) as [| p rest IH]; cbn [map]; constructor;
    [split; reflexivity | exact IH].
Qed.

(** Past the voice check the handler answers 200 or 500, nothing else. *)
Lemma synthesize_known_voice_status (req : TTSRequest) (w : World) (t : FastVieNeuTTS) :
  tts w = Some t ->
  In (or_default (voice req) DEFAULT_VOICE) (map snd (presets t)) ->
  status_of (fst (synthesize req w)) = 200 \/ status_of (fst (synthesize req w)) = 500.
Proof.
  intros Ht Hin.
  rewrite (synthesize_loaded req w t Ht). cbv zeta.
  apply contains_In in Hin. rewrite Hin.
  unfold try_except, synthesize_try, bind, get_preset_voice, infer, getitem,
    time, truediv, logger_info, logger_error, get, modify, lift, ret, raise.
  cbn [fst snd].
  destruct (preset_voice t _) as [msg | vd]; [right; reflexivity |]. cbn.
  destruct (vd_codes vd) as [codes |]; [| right; reflexivity]. cbn.
  destruct (vd_text vd) as [rtext |]; [| right; reflexivity]. cbn.
  destruct (run_infer t _ _ _ _ _) as [msg | [[| x wav] |]]; try (right; reflexivity).
  cbn. destruct (sf_write _ _) as [msg | buffer]; [right; reflexivity |]. cbn.
  destruct (Qeq_bool _ _); [right | left]; reflexivity.
Qed.

(** C9: an empty voice field is never looked up among the presets: it
    resolves to the configured default, the request behaves as the same
    request without a voice, and it is refused as an unknown voice exactly
    when the default voice is not a preset. *)
Theorem synthesize_empty_voice_is_default
    (text : string) (temperature : Q) (max_chars_chunk : Z) (format : string)
    (w : World) :
  let req_empty := {| text := text; voice := Some ""; temperature := temperature;
                      max_chars_chunk := max_chars_chunk; format := format |} in
  let req_omitted := {| text := text; voice := None; temperature := temperature;
                        max_chars_chunk := max_chars_chunk; format := format |} in
  or_default (voice req_empty) DEFAULT_VOICE = DEFAULT_VOICE /\
  or_default (voice req_omitted) DEFAULT_VOICE = DEFAULT_VOICE /\
  synthesize req_empty w = synthesize req_omitted w /\
  (forall t, tts w = Some t ->
     (In DEFAULT_VOICE (map snd (presets t)) <->
      status_of (fst (synthesize req_empty w)) <> 400)).
Proof.
  intros req_empty req_omitted.
  split; [reflexivity |]. split; [reflexivity |]. split; [reflexivity |].
  intros t Ht. split.
  - intros Hin.
    destruct (synthesize_known_voice_status req_empty w t Ht Hin) as [-> | ->];
      discriminate.
  - intros Hstatus.
    destruct (in_dec string_dec DEFAULT_VOICE (map snd (presets t))) as [Hin | Hnot];
      [exact Hin |].
    rewrite (synthesize_rejects_unknown req_empty w t Ht Hnot) in Hstatus.
    now contradiction Hstatus.
Qed.

End Service.

(** The claim C1 as the specification words it fails on both sides: before
    the load the status is ["loading"], not ["ok"]; after it the status is
    ["ok"], not ["loading"]. *)
Lemma health_status_not_inverted :
  tts (Samples.tts_world None) = None /\
  (exists r w',
     health (H := Samples.tts_host) (Samples.tts_world None) = (inr r, w') /\
     status r = "loading" /\ status r <> "ok") /\
  tts (Samples.tts_world (Some Samples.engine)) = Some Samples.engine /\
  (exists r w',
     health (H := Samples.tts_host) (Samples.tts_world (Some Samples.engine)) = (inr r, w') /\
     status r = "ok" /\ status r <> "loading").
Proof.
  split; [reflexivity |]. split.
  { eexists _, _. split; [reflexivity |]. split; [reflexivity | discriminate]. }
  split; [reflexivity |].
  eexists _, _. split; [reflexivity |]. split; [reflexivity | discriminate].
Qed.

(** The voice [X] on an engine with the presets [Doan] and [Vinh]. *)
Lemma synthesize_unknown_voice_witness :
  tts (Samples.tts_world (Some Samples.engine)) = Some Samples.engine /\
  ~ In "X" ["Doan"; "Vinh"] /\
  exists w',
    synthesize (H := Samples.tts_host) (Samples.request "hi" (Some "X"))
      (Samples.tts_world (Some Samples.engine))
    = (inl (HTTPException 400 "Voice 'X' not found. Available: ['Doan', 'Vinh']"), w') /\
    infer_calls w' = 0%nat.
Proof.
  assert (~ In "X" ["Doan"; "Vinh"]) as Hnot
    by (simpl; intros [Hx | [Hx | []]]; discriminate).
  split; [reflexivity |]. split; [exact Hnot |].
  destruct (synthesize_unknown_voice (H := Samples.tts_host)
              (Samples.request "hi" (Some "X"))
              (Samples.tts_world (Some Samples.engine)) Samples.engine
              eq_refl Hnot)
    as (detail & w' & Hrun & _ & Hdetail & _ & _ & Hinfer).
  exists w'. split; [| exact Hinfer].
  rewrite Hrun, Hdetail. reflexivity.
Defined.

(** A body with an eight-character text and temperature 0.7. *)
Lemma tts_request_validation_witness :
  (1 <= len "xin chao" <= 5000 /\
   (1 # 10 <= 7 # 10 <= 3 # 2)%Q /\
   64 <= 256 <= 512) /\
  is_Some (parse_TTSRequest (Samples.body "xin chao" (7 # 10))).
Proof.
  assert (1 <= len "xin chao" <= 5000) as Hlen by (vm_compute; split; discriminate).
  assert (1 # 10 <= 7 # 10 <= 3 # 2)%Q as Htemp by (split; discriminate).
  assert (64 <= 256 <= 512) as Hchunk by lia.
  split; [auto |].
  apply (proj1 (tts_request_validation (H := Samples.tts_host))).
  split; [exists "xin chao"; split; [reflexivity | exact Hlen] |].
  split; [exact Htemp | exact Hchunk].
Defined.

(** The text [!], on which the sample engine raises. *)
Lemma synthesize_inference_failure_witness :
  tts (Samples.tts_world (Some Samples.engine)) = Some Samples.engine /\
  In "Doan" ["Doan"; "Vinh"] /\
  preset_voice Samples.engine "Doan" = inr Samples.doan /\
  run_infer Samples.engine "!" [1; 2; 3] "xin chao" 1 256 = inl "CUDA out of memory" /\
  exists w',
    synthesize (H := Samples.tts_host) (Samples.request "!" (Some "Doan"))
      (Samples.tts_world (Some Samples.engine))
    = (inl (HTTPException 500 "Synthesis failed: CUDA out of memory"), w').
Proof.
  split; [reflexivity |]. split; [simpl; auto |].
  split; [reflexivity |]. split; [reflexivity |].
  destruct (synthesize_inference_failure (H := Samples.tts_host)
              (Samples.request "!" (Some "Doan"))
              (Samples.tts_world (Some Samples.engine)) Samples.engine
              Samples.doan [1; 2; 3] "xin chao"
              eq_refl (or_introl eq_refl) eq_refl eq_refl eq_refl)
    as (_ & Hraise).
  destruct (Hraise "CUDA out of memory" eq_refl) as (w' & Hrun & _).
  exists w'. exact Hrun.
Defined.

(** An empty voice on an engine that has the default voice [Doan] and no
    preset named by the empty string. *)
Lemma synthesize_empty_voice_is_default_witness :
  tts (Samples.tts_world (Some Samples.engine)) = Some Samples.engine /\
  ~ In "" ["Doan"; "Vinh"] /\
  In (DEFAULT_VOICE (H := Samples.tts_host)) ["Doan"; "Vinh"] /\
  status_of (fst (synthesize (H := Samples.tts_host) (Samples.request "hi" (Some ""))
                    (Samples.tts_world (Some Samples.engine)))) <> 400.
Proof.
  assert (In (DEFAULT_VOICE (H := Samples.tts_host)) ["Doan"; "Vinh"]) as Hin
    by (left; reflexivity).
  split; [reflexivity |].
  split; [simpl; intros [Hx | [Hx | []]]; discriminate |].
  split; [exact Hin |].
  destruct (synthesize_empty_voice_is_default (H := Samples.tts_host) "hi" 1 256 "wav"
              (Samples.tts_world (Some Samples.engine)))
    as (_ & _ & _ & Hcheck).
  exact (proj1 (Hcheck Samples.engine eq_refl) Hin).
Defined.

(** The two presets of the sample engine, the second without metadata. *)
Lemma list_voices_one_entry_per_preset_witness :
  tts (Samples.tts_world (Some Samples.engine)) = Some Samples.engine /\
  exists voices w',
    list_voices (Samples.tts_world (Some Samples.engine)) = (inr voices, w') /\
    map id voices = ["Doan"; "Vinh"].
Proof.
  split; [reflexivity |].
  destruct (list_voices_one_entry_per_preset
              (Samples.tts_world (Some Samples.engine)) Samples.engine eq_refl)
    as (voices & w' & Hrun & Hids & _).
  exists voices, w'. split; [exact Hrun | exact Hids].
Defined.

End TtsProofs.

(** ** Properties of the transcription service *)

Module WhisperProofs.
Import Whisper.

Lemma Sorted_map {A B} (R : A -> A -> Prop) (R' : B -> B -> Prop) (f : A -> B)
    (l : list A) :
  (forall a b, R a b -> R' (f a) (f b)) ->
  Sorted R l -> Sorted R' (map f l).
Proof.
  intros Hf Hs. induction Hs as [| a l Hs IH Hhd]; cbn [map]; constructor.
  - exact IH.
  - destruct Hhd; cbn [map]; constructor. now apply Hf.
Qed.

Section Service.
Context `{Host}.

(** The loop of [do_transcribe] appends one entry per segment to each of
    its two lists, in the order of the segments. *)
Lemma do_transcribe_loop_spec (segments : list Segment) :
  forall (result_segments : list SegmentDict) (full_text : list string),
  do_transcribe_loop segments result_segments full_text =
    ((result_segments ++
      map (fun seg => {| d_start := round (start seg) 2;
                         d_end := round (end_ seg) 2;
                         d_text := strip (text seg) |}) segments)%list,
     (full_text ++ map (fun seg => strip (text seg)) segments)%list).
Proof.
  induction segments as [| seg rest IH]; intros rs ft; cbn [do_transcribe_loop map].
  - now rewrite !app_nil_r.
  - rewrite IH, <- !app_assoc. reflexivity.
Qed.

(** The language [do_transcribe] hands to the model. *)
Local Abbreviation lang_of language :=
  (if String.eqb language%string "auto" then None else Some language%string).

(** [do_transcribe], call by call. *)
Lemma do_transcribe_run (audio_path language task : string) (w : World) :
  let w1 := record_call (CallTranscribe audio_path (lang_of language) task true 500) w in
  do_transcribe audio_path language task w =
    match run_transcribe (model w) (files w !! audio_path) (lang_of language) task with
    | inl msg => (inl (Exception msg), w1)
    | inr (segments, info) =>
        match failure segments with
        | Some msg => (inl (Exception msg), w1)
        | None =>
            (inr (map (fun seg => {| d_start := round (start seg) 2;
                                     d_end := round (end_ seg) 2;
                                     d_text := strip (text seg) |}) (yielded segments),
                  map (fun seg => strip (text seg)) (yielded segments),
                  info), w1)
        end
    end.
Proof.
  unfold do_transcribe, model_transcribe, bind, modify, get, lift.
  cbn [fst snd record_call model files].
  destruct (run_transcribe _ _ _ _) as [msg | [segments info]]; [reflexivity |].
  cbn. rewrite do_transcribe_loop_spec. cbn [app].
  destruct (failure segments); reflexivity.
Qed.

(** The [try]/[except]/[finally] statement of [transcribe_api], run on a
    state in which the upload is stored at [path]: whatever the model does,
    the file is gone afterwards and the model was called once. *)
Lemma transcribe_api_body (path language task : string) (w : World) (content : list Z) :
  files w !! path = Some content ->
  exists r w',
    try_finally
      (try_except (transcribe_api_try path language task) transcribe_api_except)
      (os_unlink path) w = (r, w') /\
    files w' = delete path (files w) /\
    calls w' = (calls w ++ [CallTranscribe path (lang_of language) task true 500])%list /\
    r = match run_transcribe (model w) (Some content) (lang_of language) task with
        | inl msg => inl (HTTPException 500 msg)
        | inr (segments, info) =>
            match failure segments with
            | Some msg => inl (HTTPException 500 msg)
            | None =>
                inr {| r_text := join " " (map (fun seg => strip (text seg))
                                               (yielded segments));
                       r_segments :=
                         map (fun seg => {| d_start := round (start seg) 2;
                                            d_end := round (end_ seg) 2;
                                            d_text := strip (text seg) |})
                             (yielded segments);
                       r_language := Whisper.language info;
                       r_language_probability := round (language_probability info) 3;
                       r_duration := round (duration info) 2;
                       r_process_time :=
                         round (clock w (S (ticks w)) - clock w (ticks w)) 2 |}
            end
        end.
Proof.
  intros Hfile.
  unfold try_finally, try_except, transcribe_api_try.
  unfold bind at 1. unfold time at 1. unfold bind at 1, get at 1, modify at 1, ret at 1.
  unfold bind at 1. unfold bind at 1. cbn [fst snd].
  unfold bind at 1. rewrite do_transcribe_run. cbv zeta.
  cbn [tick model files clock ticks]. rewrite Hfile.
  unfold os_unlink, bind, get, modify.
  destruct (run_transcribe _ _ _ _) as [msg | [segments info]].
  - cbn. rewrite Hfile. eexists _, _. repeat split.
  - destruct (failure segments) as [msg |].
    + cbn. rewrite Hfile. eexists _, _. repeat split.
    + cbn. rewrite Hfile. eexists _, _. repeat split.
Qed.

(** [transcribe_api] up to its [try] statement: creating the file,
    receiving the upload and writing it. *)
Lemma transcribe_api_upload (file : UploadFile) (language task : option string)
    (w : World) :
  transcribe_api file language task w =
    match tmp_name (splitext_ext (or_default (filename file) "audio.wav")) with
    | inl msg => (inl (Exception msg), w)
    | inr path =>
        let w1 := set_files (<[path := []]> (files w)) w in
        match read file with
        | inl msg => (inl (Exception msg), w1)
        | inr content =>
            match tmp_write_error path content with
            | Some msg => (inl (Exception msg), w1)
            | None =>
                try_finally
                  (try_except
                     (transcribe_api_try path (field_or language "vi")
                        (field_or task "transcribe"))
                     transcribe_api_except)
                  (os_unlink path)
                  (set_files (<[path := content]> (files w1)) w1)
            end
        end
    end.
Proof.
  unfold transcribe_api, NamedTemporaryFile, tmp_write, bind, lift, modify, ret, raise.
  destruct (tmp_name _) as [msg | path]; [reflexivity |].
  cbn [fst snd]. destruct (read file) as [msg | content]; [reflexivity |].
  destruct (tmp_write_error path content); reflexivity.
Qed.

(** A successful answer comes from a stored upload, a model call that
    returned, and an iteration over its segments that ran to the end. *)
Lemma transcribe_api_success (file : UploadFile) (language task : option string)
    (w w' : World) (resp : Transcription) :
  transcribe_api file language task w = (inr resp, w') ->
  exists content segments info,
    read file = inr content /\
    run_transcribe (model w) (Some content) (lang_of (field_or language "vi"))
      (field_or task "transcribe") = inr (segments, info) /\
    failure segments = None /\
    r_text resp = join " " (map (fun seg => strip (text seg)) (yielded segments)) /\
    r_segments resp =
      map (fun seg => {| d_start := round (start seg) 2;
                         d_end := round (end_ seg) 2;
                         d_text := strip (text seg) |}) (yielded segments).
Proof.
  rewrite transcribe_api_upload.
  destruct (tmp_name _) as [msg | path]; [discriminate |]. cbv zeta.
  destruct (read file) as [msg | content]; [discriminate |].
  destruct (tmp_write_error path content); [discriminate |].
  match goal with
  | |- try_finally _ _ ?w2 = _ -> _ =>
      destruct (transcribe_api_body path (field_or language "vi")
                  (field_or task "transcribe") w2 content)
        as (r & w'' & Hrun & _ & _ & Hr);
        [cbn; apply lookup_insert_eq |]
  end.
  rewrite Hrun. intros [= Hresp _]. rewrite Hresp in Hr. clear Hrun Hresp.
  cbn [model set_files] in Hr.
  destruct (run_transcribe _ _ _ _) as [msg | [segments info]] eqn:Hcall;
    [discriminate |].
  destruct (failure segments) as [msg |] eqn:Hfail; [discriminate |].
  injection Hr as ->.
  exists content, segments, info. repeat split; assumption || reflexivity.
Qed.

(** C4: in a successful answer of [POST /api/transcribe] the full text is
    the texts of the answer's segments, in their order, joined by single
    spaces; those texts are the stripped texts of the segments the model
    yielded. *)
Theorem transcribe_api_full_text (file : UploadFile) (language task : option string)
    (w w' : World) (resp : Transcription) :
  transcribe_api file language task w = (inr resp, w') ->
  r_text resp = join " " (map d_text (r_segments resp)) /\
  exists content segments info,
    run_transcribe (model w) (Some content) (lang_of (field_or language "vi"))
      (field_or task "transcribe") = inr (segments, info) /\
    map d_text (r_segments resp) = map (fun seg => strip (text seg)) (yielded segments).
Proof.
  intros Hrun.
  destruct (transcribe_api_success _ _ _ _ _ _ Hrun)
    as (content & segments & info & _ & Hmodel & _ & Htext & Hsegs).
  assert (map d_text (r_segments resp)
          = map (fun seg => strip (text seg)) (yielded segments)) as Hmap
    by (rewrite Hsegs, map_map; reflexivity).
  split; [now rewrite Hmap | eauto].
Qed.

(** C7: when the segments the model yields each end no earlier than they
    start and start no earlier than the segment before, the segments of a
    successful answer do too: the answer keeps the model's order and rounds
    both bounds to two decimals. *)
Theorem transcribe_api_segments_ordered (file : UploadFile)
    (language task : option string) (w w' : World) (resp : Transcription) :
  (forall audio lang tsk segments info,
     run_transcribe (model w) audio lang tsk = inr (segments, info) ->
     Forall (fun seg => (start seg <= end_ seg)%Q) (yielded segments) /\
     Sorted (fun a b => (start a <= start b)%Q) (yielded segments)) ->
  transcribe_api file language task w = (inr resp, w') ->
  Forall (fun d => (d_start d <= d_end d)%Q) (r_segments resp) /\
  Sorted (fun a b => (d_start a <= d_start b)%Q) (r_segments resp) /\
  StronglySorted (fun a b => (d_start a <= d_start b)%Q) (r_segments resp).
Proof.
  intros Hmodel Hrun.
  destruct (transcribe_api_success _ _ _ _ _ _ Hrun)
    as (content & segments & info & _ & Hcall & _ & _ & Hsegs).
  destruct (Hmodel _ _ _ _ _ Hcall) as (Hbounds & Hsorted).
  assert (Sorted (fun a b => (d_start a <= d_start b)%Q) (r_segments resp)) as Hs.
  { rewrite Hsegs. eapply Sorted_map; [| exact Hsorted].
    intros a b Hab. cbn. now apply PyFacts.round_mono. }
  split; [| split; [exact Hs |]].
  - rewrite Hsegs. apply Forall_map.
    eapply Forall_impl; [exact Hbounds |].
    intros seg Hseg. cbn. now apply PyFacts.round_mono.
  - apply Sorted_StronglySorted; [| exact Hs].
    intros a b c Hab Hbc. eapply Qle_trans; eassumption.
Qed.

(** The handler, once the upload is stored, calls the model exactly once;
    the language it hands over is ["vi"] for a parameter left to its
    default, none for ["auto"], and the bound string itself otherwise. *)
Lemma transcribe_api_language (file : UploadFile) (language task : option string)
    (w : World) (path : string) (content : list Z) :
  tmp_name (splitext_ext (or_default (filename file) "audio.wav")) = inr path ->
  read file = inr content ->
  tmp_write_error path content = None ->
  exists r w' lang,
    transcribe_api file language task w = (r, w') /\
    calls w' = (calls w ++ [CallTranscribe path lang (field_or task "transcribe")
                              true 500])%list /\
    (language = None -> lang = Some "vi") /\
    (language = Some "auto" -> lang = None) /\
    (forall s, language = Some s -> s <> "auto" -> lang = Some s).
Proof.
  intros Hname Hread Hwrite.
  rewrite transcribe_api_upload, Hname. cbv zeta. rewrite Hread, Hwrite.
  match goal with
  | |- context [try_finally _ _ ?w2] =>
      destruct (transcribe_api_body path (field_or language "vi")
                  (field_or task "transcribe") w2 content)
        as (r & w' & Hrun & _ & Hcalls & _);
        [cbn; apply lookup_insert_eq |]
  end.
  exists r, w', (lang_of (field_or language "vi")).
  split; [exact Hrun |]. split; [exact Hcalls |].
  split; [intros ->; reflexivity |].
  split; [intros ->; reflexivity |].
  intros s -> Hs. cbn. apply String.eqb_neq in Hs. now rewrite Hs.
Qed.

(** Once the upload is stored, every exit of the handler, an answer or an
    error, leaves no file at the path of the upload. *)
Lemma transcribe_api_removes_stored_upload (file : UploadFile)
    (language task : option string) (w : World) (path : string) (content : list Z) :
  tmp_name (splitext_ext (or_default (filename file) "audio.wav")) = inr path ->
  read file = inr content ->
  tmp_write_error path content = None ->
  exists r w',
    transcribe_api file language task w = (r, w') /\ files w' !! path = None.
Proof.
  intros Hname Hread Hwrite.
  rewrite transcribe_api_upload, Hname. cbv zeta. rewrite Hread, Hwrite.
  match goal with
  | |- context [try_finally _ _ ?w2] =>
      destruct (transcribe_api_body path (field_or language "vi")
                  (field_or task "transcribe") w2 content)
        as (r & w' & Hrun & Hfiles & _);
        [cbn; apply lookup_insert_eq |]
  end.
  exists r, w'. split; [exact Hrun |].
  rewrite Hfiles. apply lookup_delete_eq.
Qed.

(** When receiving the upload or writing it raises, the handler exits with
    that exception and the file it created, still empty, stays on disk: the
    [with] block that receives and writes lies outside the [try] whose
    [finally] removes the file. *)
Lemma transcribe_api_upload_failure_keeps_file (file : UploadFile)
    (language task : option string) (w : World) (path msg : string) :
  tmp_name (splitext_ext (or_default (filename file) "audio.wav")) = inr path ->
  (read file = inl msg \/
   exists content, read file = inr content /\ tmp_write_error path content = Some msg) ->
  exists w',
    transcribe_api file language task w = (inl (Exception msg), w') /\
    files w' !! path = Some [].
Proof.
  intros Hname Hfail.
  rewrite transcribe_api_upload, Hname. cbv zeta.
  destruct Hfail as [Hread | (content & Hread & Hwrite)]; rewrite Hread; [| rewrite Hwrite];
    eexists; (split; [reflexivity | cbn; apply lookup_insert_eq]).
Qed.

(** C10, as amended: once the upload is stored, the route calls the model
    exactly once, and the language the model is given is ["vi"] when the
    request has no language field or an empty one, none when the field is
    ["auto"], and the field itself for any other, non-empty, value. *)
Theorem post_api_transcribe_language (file : UploadFile)
    (language task : option string) (w : World) (path : string) (content : list Z) :
  tmp_name (splitext_ext (or_default (filename file) "audio.wav")) = inr path ->
  read file = inr content ->
  tmp_write_error path content = None ->
  exists r w' lang,
    post_api_transcribe file language task w = (r, w') /\
    calls w' = (calls w ++ [CallTranscribe path lang (or_default task "transcribe")
                              true 500])%list /\
    (language = None \/ language = Some "" -> lang = Some "vi") /\
    (language = Some "auto" -> lang = None) /\
    (forall s, language = Some s -> s <> "" -> s <> "auto" -> lang = Some s).
Proof.
  intros Hname Hread Hwrite. unfold post_api_transcribe.
  destruct (transcribe_api_language file (form_field language) (form_field task)
              w path content Hname Hread Hwrite)
    as (r & w' & lang & Hrun & Hcalls & Hnone & Hauto & Hother).
  exists r, w', lang. split; [exact Hrun |].
  split.
  { rewrite Hcalls. do 3 f_equal.
    destruct task as [s |]; [| reflexivity]. cbn.
    destruct (String.eqb s ""); reflexivity. }
  split; [intros [-> | ->]; apply Hnone; reflexivity |].
  split; [intros ->; apply Hauto; reflexivity |].
  intros s -> Hempty Hs. apply (Hother s); [| exact Hs].
  cbn. apply String.eqb_neq in Hempty. now rewrite Hempty.
Qed.

End Service.

(** C2, at a five-byte upload on a disk that takes four: writing the upload
    raises, the handler exits with that exception, and the file it created,
    absent before the request, is still there after it. *)
Theorem transcribe_api_write_failure_leaves_file :
  files Samples.whisper_world !! "/tmp/tmpk3x9.wav" = None /\
  exists w',
    transcribe_api (H := Samples.whisper_host) (Samples.upload [1; 2; 3; 4; 5])
      None None Samples.whisper_world
    = (inl (Exception "[Errno 28] No space left on device"), w') /\
    files w' !! "/tmp/tmpk3x9.wav" = Some [].
Proof.
  split; [reflexivity |].
  eexists. split; vm_compute; reflexivity.
Qed.

(** A two-byte upload heard as two segments. *)
Lemma transcribe_api_full_text_witness :
  transcribe_api (H := Samples.whisper_host) (Samples.upload [1; 2]) None None
    Samples.whisper_world
  = (inr Samples.answer,
     snd (transcribe_api (H := Samples.whisper_host) (Samples.upload [1; 2]) None None
            Samples.whisper_world)) /\
  r_text Samples.answer = join " " (map d_text (r_segments Samples.answer)).
Proof.
  assert (transcribe_api (H := Samples.whisper_host) (Samples.upload [1; 2]) None None
            Samples.whisper_world
          = (inr Samples.answer,
             snd (transcribe_api (H := Samples.whisper_host) (Samples.upload [1; 2])
                    None None Samples.whisper_world))) as Hrun
    by (vm_compute; reflexivity).
  split; [exact Hrun |].
  exact (proj1 (transcribe_api_full_text _ _ _ _ _ _ Hrun)).
Defined.

(** The two segments of the sample recogniser, in order and well-bounded. *)
Lemma transcribe_api_segments_ordered_witness :
  (forall audio lang tsk segments info,
     run_transcribe (model Samples.whisper_world) audio lang tsk = inr (segments, info) ->
     Forall (fun seg => (start seg <= end_ seg)%Q) (yielded segments) /\
     Sorted (fun a b => (start a <= start b)%Q) (yielded segments)) /\
  transcribe_api (H := Samples.whisper_host) (Samples.upload [1; 2]) None None
    Samples.whisper_world
  = (inr Samples.answer,
     snd (transcribe_api (H := Samples.whisper_host) (Samples.upload [1; 2]) None None
            Samples.whisper_world)) /\
  Sorted (fun a b => (d_start a <= d_start b)%Q) (r_segments Samples.answer) /\
  Forall (fun d => (d_start d <= d_end d)%Q) (r_segments Samples.answer).
Proof.
  assert (forall audio lang tsk segments info,
            run_transcribe (model Samples.whisper_world) audio lang tsk
            = inr (segments, info) ->
            Forall (fun seg => (start seg <= end_ seg)%Q) (yielded segments) /\
            Sorted (fun a b => (start a <= start b)%Q) (yielded segments)) as Hmodel.
  { intros audio lang tsk segments info Hcall. simpl in Hcall.
    destruct audio; [| discriminate]. injection Hcall as <- _. simpl.
    split; repeat constructor; discriminate. }
  assert (transcribe_api (H := Samples.whisper_host) (Samples.upload [1; 2]) None None
            Samples.whisper_world
          = (inr Samples.answer,
             snd (transcribe_api (H := Samples.whisper_host) (Samples.upload [1; 2])
                    None None Samples.whisper_world))) as Hrun
    by (vm_compute; reflexivity).
  split; [exact Hmodel |]. split; [exact Hrun |].
  destruct (transcribe_api_segments_ordered _ _ _ _ _ _ Hmodel Hrun)
    as (Hbounds & Hsorted & _).
  split; [exact Hsorted | exact Hbounds].
Defined.

(** A stored upload sent with the language [auto]. *)
Lemma post_api_transcribe_language_witness :
  tmp_name (Host := Samples.whisper_host)
    (splitext_ext (Host := Samples.whisper_host)
       (or_default (filename (Samples.upload [1; 2])) "audio.wav"))
  = inr "/tmp/tmpk3x9.wav" /\
  read (Samples.upload [1; 2]) = inr [1; 2] /\
  tmp_write_error (Host := Samples.whisper_host) "/tmp/tmpk3x9.wav" [1; 2] = None /\
  exists r w',
    post_api_transcribe (H := Samples.whisper_host) (Samples.upload [1; 2])
      (Some "auto") None Samples.whisper_world = (r, w') /\
    calls w' = [CallTranscribe "/tmp/tmpk3x9.wav" None "transcribe" true 500].
Proof.
  split; [reflexivity |]. split; [reflexivity |]. split; [reflexivity |].
  destruct (post_api_transcribe_language (H := Samples.whisper_host)
              (Samples.upload [1; 2]) (Some "auto") None Samples.whisper_world
              "/tmp/tmpk3x9.wav" [1; 2] eq_refl eq_refl eq_refl)
    as (r & w' & lang & Hrun & Hcalls & _ & Hauto & _).
  exists r, w'. split; [exact Hrun |].
  rewrite Hcalls, (Hauto eq_refl). reflexivity.
Defined.

(** The claim C10 as worded fails for a language field that is supplied
    but empty: the string is not passed to the model unchanged, the model
    is given ["vi"]. *)
Lemma post_api_transcribe_empty_language :
  calls (snd (post_api_transcribe (H := Samples.whisper_host) (Samples.upload [1; 2])
                (Some "") None Samples.whisper_world))
  = [CallTranscribe "/tmp/tmpk3x9.wav" (Some "vi") "transcribe" true 500] /\
  calls (snd (post_api_transcribe (H := Samples.whisper_host) (Samples.upload [1; 2])
                (Some "") None Samples.whisper_world))
  <> [CallTranscribe "/tmp/tmpk3x9.wav" (Some "") "transcribe" true 500].
Proof.
  split; [vm_compute; reflexivity |].
  vm_compute. discriminate.
Qed.

End WhisperProofs.

(** ** The synthesis handler, exit by exit *)

Module TtsRuns.
Import Tts TtsProofs.

Lemma infer_calls_record_infer (w : World) (text : string) (codes : list Z)
    (rtext : string) (temp : Q) (mc : Z) :
  infer_calls (record_call (CallInfer text codes rtext temp mc) w) = S (infer_calls w).
Proof.
  unfold infer_calls, record_call. simpl.
  rewrite filter_app, length_app.
  rewrite filter_cons_True by (simpl; auto).
  rewrite filter_nil. simpl. lia.
Qed.

Lemma infer_calls_record_log (r : LogRecord) (w : World) :
  infer_calls (record_log r w) = infer_calls w.
Proof. reflexivity. Qed.

Lemma infer_calls_tick (w : World) : infer_calls (tick w) = infer_calls w.
Proof. reflexivity. Qed.

(** Count the [infer] calls of a state built from [w] by the handler. *)
Ltac count_infer :=
  repeat first
    [ rewrite infer_calls_record_log
    | rewrite infer_calls_tick
    | rewrite infer_calls_record_infer
    | rewrite infer_calls_record by reflexivity ].

Section Service.
Context `{Host}.

(** The [try] statement of [synthesize] with its two [except] clauses, as
    a table over what the model and the encoder answer.  [w] is the state
    on entering the [try], [start_time] the clock reading taken just
    before. *)
Lemma synthesize_try_run (t : FastVieNeuTTS) (req : TTSRequest) (voice_id : string)
    (start_time : Q) (w : World) :
  try_except (synthesize_try t req voice_id start_time) synthesize_except w =
    let w1 := record_call (CallGetPresetVoice voice_id) w in
    let failed (msg : string) (w' : World) : (PyExc + StreamingResponse) * World :=
      (inl (HTTPException 500 ("Synthesis failed: " ++ msg)),
       record_log (LogError ("TTS error: " ++ msg)) w') in
    match preset_voice t voice_id with
    | inl msg => failed msg w1
    | inr vd =>
        match vd_codes vd with
        | None => failed (repr_str "codes") w1
        | Some codes =>
            match vd_text vd with
            | None => failed (repr_str "text") w1
            | Some rtext =>
                let w2 := record_call (CallInfer (text req) codes rtext
                                         (temperature req) (max_chars_chunk req)) w1 in
                match run_infer t (text req) codes rtext (temperature req)
                        (max_chars_chunk req) with
                | inl msg => failed msg w2
                | inr None => (inl (HTTPException 500 "Failed to generate audio"), w2)
                | inr (Some []) => (inl (HTTPException 500 "Failed to generate audio"), w2)
                | inr (Some (x :: wav)) =>
                    match sf_write (x :: wav) 24000 with
                    | inl msg => failed msg w2
                    | inr buffer =>
                        let process_time := (clock w (ticks w) - start_time)%Q in
                        let duration :=
                          (inject_Z (Z.of_nat (length (x :: wav))) / 24000)%Q in
                        if Qeq_bool process_time 0 then
                          failed "float division by zero" (tick w2)
                        else
                          (inr {| content := buffer;
                                  media_type := "audio/wav";
                                  headers :=
                                    [("Content-Disposition",
                                      "attachment; filename=speech.wav");
                                     ("X-Process-Time", format_f 3 process_time);
                                     ("X-Audio-Duration", format_f 3 duration)] |},
                           record_log
                             (LogInfo ("TTS: voice=" ++ voice_id
                                       ++ ", text_len=" ++ pretty (len (text req))
                                       ++ ", audio=" ++ format_f 2 duration
                                       ++ "s, time=" ++ format_f 2 process_time
                                       ++ "s, rtf="
                                       ++ format_f 2 (duration / process_time)%Q ++ "x"))
                             (tick w2))
                    end
                end
            end
        end
    end.
Proof.
  unfold try_except, synthesize_try, bind, get_preset_voice, infer, getitem,
    time, truediv, logger_info, logger_error, get, modify, lift, ret, raise.
  cbn [fst snd].
  destruct (preset_voice t voice_id) as [msg | vd]; [reflexivity |]. cbn.
  destruct (vd_codes vd) as [codes |]; [| reflexivity]. cbn.
  destruct (vd_text vd) as [rtext |]; [| reflexivity]. cbn.
  destruct (run_infer t _ _ _ _ _) as [msg | [[| x wav] |]]; try reflexivity.
  cbn. destruct (sf_write _ _) as [msg | buffer]; [reflexivity |]. cbn.
  destruct (Qeq_bool _ _); reflexivity.
Qed.

(** Case analysis on the table of [synthesize_try_run]. *)
Ltac run_cases :=
  rewrite synthesize_try_run; cbv zeta;
  destruct (preset_voice _ _) as [?msg | ?vd] eqn:?Hvd;
  [| destruct (vd_codes _) as [?codes |] eqn:?Hcodes;
     [destruct (vd_text _) as [?rtext |] eqn:?Htext;
      [destruct (run_infer _ _ _ _ _ _) as [?msg | [[| ?x ?wav] |]] eqn:?Hinfer;
       [| | destruct (sf_write _ _) as [?msg | ?buffer] eqn:?Hwrite;
            [| destruct (Qeq_bool _ _) eqn:?Hzero] |] |] |]].

(** Case analysis on a whole run of [synthesize]. *)
Ltac synthesize_cases req w :=
  let t := fresh "t" in
  let Ht := fresh "Ht" in
  let Hc := fresh "Hc" in
  destruct (tts w) as [t |] eqn:Ht;
  [rewrite (synthesize_loaded req w t Ht); cbv zeta;
   destruct (contains _ _) eqn:Hc; [run_cases |]
  | unfold synthesize, bind, get; rewrite Ht].

(** On a handle whose enumeration returns, the handler answers with one
    of four statuses, and every error it exits with is an
    [HTTPException]. *)
Lemma synthesize_status_codes (req : TTSRequest) (w : World) :
  (status_of (fst (synthesize req w)) = 200 \/
   status_of (fst (synthesize req w)) = 400 \/
   status_of (fst (synthesize req w)) = 500 \/
   status_of (fst (synthesize req w)) = 503) /\
  (forall msg, fst (synthesize req w) <> inl (Exception msg)).
Proof.
  synthesize_cases req w; cbn; (split; [tauto | intros ?; discriminate]).
Qed.

(** X2: A request, whatever its outcome, leaves the global model handle as it
    found it, only ever adds to the record of model calls, and calls
    [infer] at most once: there is no retry. *)
Theorem synthesize_isolated (req : TTSRequest) (w : World) :
  tts (snd (synthesize req w)) = tts w /\
  (exists new, calls (snd (synthesize req w)) = (calls w ++ new)%list) /\
  (infer_calls (snd (synthesize req w)) <= S (infer_calls w))%nat.
Proof.
  synthesize_cases req w;
    (split; [cbn; first [assumption | reflexivity] |]);
    (split; [cbn; rewrite <- ?app_assoc; eexists; try reflexivity;
             symmetry; apply app_nil_r |]);
    unfold raise; cbn [snd]; count_infer; lia.
Qed.

(** X3: an answer with audio comes from exactly one path: the model is
    loaded, the resolved voice is a preset whose data has codes and text,
    [infer] was called once with the request's text and parameters and gave
    a waveform with at least one sample, the encoder's bytes are the body,
    the reported duration is that of the waveform at 24 kHz and is positive,
    and the elapsed time read off the clock is not zero. *)
Theorem synthesize_success (req : TTSRequest) (w w' : World) (resp : StreamingResponse) :
  synthesize req w = (inr resp, w') ->
  let voice_id := or_default (voice req) DEFAULT_VOICE in
  let process_time := (clock w (S (ticks w)) - clock w (ticks w))%Q in
  exists t vd codes rtext wav,
    tts w = Some t /\
    In voice_id (map snd (presets t)) /\
    preset_voice t voice_id = inr vd /\
    vd_codes vd = Some codes /\
    vd_text vd = Some rtext /\
    run_infer t (text req) codes rtext (temperature req) (max_chars_chunk req)
      = inr (Some wav) /\
    wav <> [] /\
    sf_write wav 24000 = inr (content resp) /\
    media_type resp = "audio/wav" /\
    headers resp =
      [("Content-Disposition", "attachment; filename=speech.wav");
       ("X-Process-Time", format_f 3 process_time);
       ("X-Audio-Duration",
        format_f 3 (inject_Z (Z.of_nat (length wav)) / 24000)%Q)] /\
    (0 < inject_Z (Z.of_nat (length wav)) / 24000)%Q /\
    ~ (process_time == 0)%Q /\
    calls w' = (calls w ++ [CallListPresetVoices; CallGetPresetVoice voice_id;
                            CallInfer (text req) codes rtext (temperature req)
                              (max_chars_chunk req)])%list.
Proof.
  intros Hrun voice_id process_time. subst voice_id process_time. revert Hrun.
  synthesize_cases req w; try discriminate.
  cbn [tick record_call clock ticks]. intros [= <- <-].
  apply contains_In in Hc.
  exists t, vd, codes, rtext, (x :: wav).
  repeat (split; [first [assumption | reflexivity | discriminate] |]).
  split.
  { intros Hz. apply Qeq_bool_iff in Hz. cbn in Hzero. congruence. }
  cbn. now rewrite <- !app_assoc.
Qed.

(** What a validated request carries: the fields of the body, defaults
    filled in, within the declared bounds. *)
Lemma parse_TTSRequest_fields (b : Body) (req : TTSRequest) :
  parse_TTSRequest b = Some req ->
  body_text b = Some (text req) /\
  voice req = body_voice b /\
  temperature req = field_or (body_temperature b) 1%Q /\
  max_chars_chunk req = field_or (body_max_chars_chunk b) 256 /\
  format req = field_or (body_format b) "wav" /\
  1 <= len (text req) <= 5000 /\
  (1 # 10 <= temperature req <= 3 # 2)%Q /\
  64 <= max_chars_chunk req <= 512.
Proof.
  unfold parse_TTSRequest.
  destruct (body_text b) as [t |]; [| discriminate].
  match goal with |- context [if ?c then _ else _] => destruct c eqn:Hc end;
    [| discriminate].
  intros [= <-]. cbn.
  repeat (apply andb_prop in Hc; destruct Hc as [Hc ?]).
  repeat match goal with
         | Hq : Qle_bool _ _ = true |- _ => apply Qle_bool_iff in Hq
         end.
  repeat split; try reflexivity; try assumption; lia.
Qed.

(** X4: through the route, the model only ever sees arguments within the
    declared bounds: every [infer] call a request adds carries the text of
    the body, of 1 to 5000 characters, a temperature in [0.1, 1.5] and a
    chunk size in [64, 512]. *)
Theorem post_api_tts_infer_arguments (b : Body) (w : World) :
  exists new,
    calls (snd (post_api_tts b w)) = (calls w ++ new)%list /\
    Forall (fun c =>
              match c with
              | CallInfer text _ _ temperature max_chars =>
                  body_text b = Some text /\
                  1 <= len text <= 5000 /\
                  (1 # 10 <= temperature <= 3 # 2)%Q /\
                  64 <= max_chars <= 512
              | _ => True
              end) new.
Proof.
  unfold post_api_tts.
  destruct (parse_TTSRequest b) as [req |] eqn:Hparse.
  - destruct (parse_TTSRequest_fields b req Hparse)
      as (Htext & _ & _ & _ & _ & Hlen & Htemp & Hchunk).
    synthesize_cases req w; cbn [snd calls record_call record_log tick raise];
      rewrite <- ?app_assoc; cbn [app];
      (eexists; split; [first [reflexivity | symmetry; apply app_nil_r] |]);
      repeat first [assumption | constructor].
  - exists []. split; [symmetry; apply app_nil_r | constructor].
Qed.


(** X6: A preset whose data cannot be resolved, because the lookup raises or
    because the data lacks the codes or the text, ends the request with
    status 500 before inference: the detail names the exception (for a
    missing key, the key), the error is logged, [infer] is not called. *)
Theorem synthesize_voice_data_failure (req : TTSRequest) (w : World)
    (t : FastVieNeuTTS) (cause : string) :
  tts w = Some t ->
  In (or_default (voice req) DEFAULT_VOICE) (map snd (presets t)) ->
  (preset_voice t (or_default (voice req) DEFAULT_VOICE) = inl cause \/
   (exists vd, preset_voice t (or_default (voice req) DEFAULT_VOICE) = inr vd /\
               vd_codes vd = None /\ cause = repr_str "codes") \/
   (exists vd, preset_voice t (or_default (voice req) DEFAULT_VOICE) = inr vd /\
               is_Some (vd_codes vd) /\ vd_text vd = None /\
               cause = repr_str "text")) ->
  exists w',
    synthesize req w = (inl (HTTPException 500 ("Synthesis failed: " ++ cause)), w') /\
    logs w' = (logs w ++ [LogError ("TTS error: " ++ cause)])%list /\
    infer_calls w' = infer_calls w.
Proof.
  intros Ht Hin Hcause.
  rewrite (synthesize_loaded req w t Ht). cbv zeta.
  apply contains_In in Hin. rewrite Hin.
  rewrite synthesize_try_run. cbv zeta.
  destruct Hcause as [Hvd | [(vd & Hvd & Hcodes & ->) | (vd & Hvd & [codes Hcodes] & Htext & ->)]];
    rewrite Hvd; rewrite ?Hcodes, ?Htext;
    (eexists; split; [reflexivity |]; split; [reflexivity |]);
    count_infer; reflexivity.
Qed.

(** X7: when the encoder raises on the waveform, the request ends with status
    500 and the encoder's message, after the one [infer] call that produced
    the waveform. *)
Theorem synthesize_encoder_failure (req : TTSRequest) (w : World) (t : FastVieNeuTTS)
    (vd : VoiceData) (codes : list Z) (rtext : string) (wav : list Q) (msg : string) :
  tts w = Some t ->
  In (or_default (voice req) DEFAULT_VOICE) (map snd (presets t)) ->
  preset_voice t (or_default (voice req) DEFAULT_VOICE) = inr vd ->
  vd_codes vd = Some codes ->
  vd_text vd = Some rtext ->
  run_infer t (text req) codes rtext (temperature req) (max_chars_chunk req)
    = inr (Some wav) ->
  wav <> [] ->
  sf_write wav 24000 = inl msg ->
  exists w',
    synthesize req w = (inl (HTTPException 500 ("Synthesis failed: " ++ msg)), w') /\
    logs w' = (logs w ++ [LogError ("TTS error: " ++ msg)])%list /\
    infer_calls w' = S (infer_calls w).
Proof.
  intros Ht Hin Hvd Hcodes Htext Hinfer Hwav Hwrite.
  rewrite (synthesize_loaded req w t Ht). cbv zeta.
  apply contains_In in Hin. rewrite Hin.
  rewrite synthesize_try_run. cbv zeta.
  rewrite Hvd, Hcodes, Htext, Hinfer.
  destruct wav as [| x wav]; [contradiction |].
  rewrite Hwrite.
  eexists; split; [reflexivity |]; split; [reflexivity |].
  count_infer. reflexivity.
Qed.

(** X8: when the clock reads the same before the [try] and after encoding,
    the division that computes the real-time factor for the log line
    raises: the request ends with status 500 although the audio was
    generated and encoded. *)
Theorem synthesize_zero_elapsed (req : TTSRequest) (w : World) (t : FastVieNeuTTS)
    (vd : VoiceData) (codes : list Z) (rtext : string) (wav : list Q)
    (buffer : list Z) :
  tts w = Some t ->
  In (or_default (voice req) DEFAULT_VOICE) (map snd (presets t)) ->
  preset_voice t (or_default (voice req) DEFAULT_VOICE) = inr vd ->
  vd_codes vd = Some codes ->
  vd_text vd = Some rtext ->
  run_infer t (text req) codes rtext (temperature req) (max_chars_chunk req)
    = inr (Some wav) ->
  wav <> [] ->
  sf_write wav 24000 = inr buffer ->
  (clock w (S (ticks w)) == clock w (ticks w))%Q ->
  exists cause w',
    synthesize req w = (inl (HTTPException 500 ("Synthesis failed: " ++ cause)), w') /\
    infer_calls w' = S (infer_calls w).
Proof.
  intros Ht Hin Hvd Hcodes Htext Hinfer Hwav Hwrite Hclock.
  rewrite (synthesize_loaded req w t Ht). cbv zeta.
  apply contains_In in Hin. rewrite Hin.
  rewrite synthesize_try_run. cbv zeta.
  rewrite Hvd, Hcodes, Htext, Hinfer.
  destruct wav as [| x wav]; [contradiction |].
  rewrite Hwrite. cbn [tick record_call clock ticks].
  assert (Qeq_bool (clock w (S (ticks w)) - clock w (ticks w)) 0 = true) as ->
    by (apply Qeq_bool_iff; rewrite Hclock; ring).
  eexists _, _; split; [reflexivity |].
  count_infer. reflexivity.
Qed.

(** What a request leaves in the log, on a handle whose enumeration
    returns. *)
Lemma synthesize_logging (req : TTSRequest) (w : World) :
  match fst (synthesize req w) with
  | inr _ => exists line, logs (snd (synthesize req w)) = (logs w ++ [LogInfo line])%list
  | inl (HTTPException code detail) =>
      (exists cause,
         code = 500 /\ detail = "Synthesis failed: " ++ cause /\
         logs (snd (synthesize req w))
         = (logs w ++ [LogError ("TTS error: " ++ cause)])%list) \/
      (logs (snd (synthesize req w)) = logs w /\
       (code = 400 \/ code = 503 \/
        (code = 500 /\ detail = "Failed to generate audio")))
  | inl (Exception _) => False
  end.
Proof.
  synthesize_cases req w; cbn [fst snd];
    first [ left; eexists; repeat split; reflexivity
          | right; split; [reflexivity | tauto]
          | eexists; reflexivity ].
Qed.

(** The loop of [list_voices] looks up each remaining preset once, in
    order, and touches nothing else. *)
Lemma list_voices_loop_calls (t : FastVieNeuTTS) (items : list (string * string)) :
  forall (voices : list VoiceInfo) (w : World),
    calls (snd (list_voices_loop t items voices w))
    = (calls w ++ map CallGetPresetVoice (map snd items))%list /\
    logs (snd (list_voices_loop t items voices w)) = logs w /\
    tts (snd (list_voices_loop t items voices w)) = tts w /\
    ticks (snd (list_voices_loop t items voices w)) = ticks w.
Proof.
  induction items as [| [desc vid] rest IH]; intros voices w.
  - cbn. now rewrite app_nil_r.
  - cbn [list_voices_loop]. unfold bind at 1.
    unfold try_except, bind, get_preset_voice, modify, lift.
    cbn [fst snd].
    destruct (preset_voice t vid) as [msg | vd]; cbn;
      match goal with
      | |- context [list_voices_loop t rest ?vs ?w1] =>
          destruct (IH vs w1) as (Hcalls & Hlogs & Htts & Hticks)
      end;
      rewrite Hcalls, Hlogs, Htts, Hticks; cbn; now rewrite <- app_assoc.
Qed.

(** X10: [GET /api/voices] on a loaded model enumerates the presets once and
    then looks up each preset once, in the order of the enumeration; it
    never calls [infer], writes no log record, reads no clock and leaves the
    handle in place, whether or not lookups raise. *)
Theorem list_voices_calls (w : World) (t : FastVieNeuTTS) :
  tts w = Some t ->
  calls (snd (list_voices w))
  = (calls w ++ CallListPresetVoices
       :: map CallGetPresetVoice (map snd (presets t)))%list /\
  logs (snd (list_voices w)) = logs w /\
  ticks (snd (list_voices w)) = ticks w /\
  tts (snd (list_voices w)) = Some t.
Proof.
  intros Ht. unfold list_voices, bind, get. rewrite Ht.
  unfold list_preset_voices, bind, modify, ret. cbn [fst snd].
  destruct (list_voices_loop_calls t (presets t) []
              (record_call CallListPresetVoices w))
    as (Hcalls & Hlogs & Htts & Hticks).
  rewrite Hcalls, Hlogs, Htts, Hticks. cbn. rewrite <- ?app_assoc.
  repeat split; assumption || reflexivity.
Qed.

(** X11: before the model is loaded the two endpoints that need it answer 503
    and leave the process state, call record included, untouched. *)
Theorem endpoints_before_load (req : TTSRequest) (w : World) :
  tts w = None ->
  synthesize req w = (inl (HTTPException 503 "Model not loaded yet"), w) /\
  list_voices w = (inl (HTTPException 503 "Model not loaded yet"), w).
Proof.
  intros Ht. unfold synthesize, list_voices, bind, get. rewrite Ht. split; reflexivity.
Qed.

(** The handler answers 503 exactly when the handle is missing. *)
Lemma synthesize_503 (req : TTSRequest) (w : World) :
  status_of (fst (synthesize req w)) = 503 <-> tts w = None.
Proof.
  synthesize_cases req w; cbn; split; intros; discriminate || reflexivity.
Qed.

(** X12: start-up, then requests.  When the load succeeds, the handle is set and
    no call has reached the model; from then on the health check reports
    ["ok"] and [POST /api/tts] no longer answers 503.  When the load raises,
    start-up raises with it and the handle is as it was. *)
Theorem lifespan_startup_ready (load : result FastVieNeuTTS) (w : World) :
  match load with
  | inr t =>
      exists w1,
        lifespan_startup load w = (inr tt, w1) /\
        tts w1 = Some t /\
        calls w1 = calls w /\
        (exists r w2, health w1 = (inr r, w2) /\ status r = "ok") /\
        (forall req, status_of (fst (synthesize req w1)) <> 503)
  | inl msg =>
      exists w1,
        lifespan_startup load w = (inl (Exception msg), w1) /\
        tts w1 = tts w /\
        calls w1 = calls w
  end.
Proof.
  destruct load as [msg | t].
  - eexists. split; [reflexivity |]. split; reflexivity.
  - eexists. split; [reflexivity |]. split; [reflexivity |]. split; [reflexivity |].
    split.
    + eexists _, _. split; reflexivity.
    + intros req Hs. apply synthesize_503 in Hs. discriminate.
Qed.

End Service.

(** The text ["hi"] spoken by the sample engine. *)
Lemma synthesize_success_witness :
  synthesize (H := Samples.tts_host) (Samples.request "hi" None)
    (Samples.tts_world (Some Samples.engine))
  = (inr Samples.speech,
     snd (synthesize (H := Samples.tts_host) (Samples.request "hi" None)
            (Samples.tts_world (Some Samples.engine)))) /\
  exists wav,
    run_infer Samples.engine "hi" [1; 2; 3] "xin chao" 1 256 = inr (Some wav) /\
    wav <> [].
Proof.
  assert (synthesize (H := Samples.tts_host) (Samples.request "hi" None)
            (Samples.tts_world (Some Samples.engine))
          = (inr Samples.speech,
             snd (synthesize (H := Samples.tts_host) (Samples.request "hi" None)
                    (Samples.tts_world (Some Samples.engine))))) as Hrun
    by (vm_compute; reflexivity).
  split; [exact Hrun |].
  destruct (synthesize_success (H := Samples.tts_host) _ _ _ _ Hrun)
    as (t & vd & codes & rtext & wav & Ht & _ & Hvd & Hcodes & Htext & Hinfer & Hwav & _).
  injection Ht as <-. injection Hvd as <-.
  injection Hcodes as <-. injection Htext as <-.
  exists wav. split; [exact Hinfer | exact Hwav].
Defined.

(** The preset [Vinh], whose lookup raises on the sample engine. *)
Lemma synthesize_voice_data_failure_witness :
  tts (Samples.tts_world (Some Samples.engine)) = Some Samples.engine /\
  In "Vinh" ["Doan"; "Vinh"] /\
  preset_voice Samples.engine "Vinh" = inl "voice file missing" /\
  exists w',
    synthesize (H := Samples.tts_host) (Samples.request "hi" (Some "Vinh"))
      (Samples.tts_world (Some Samples.engine))
    = (inl (HTTPException 500 "Synthesis failed: voice file missing"), w') /\
    infer_calls w' = 0%nat.
Proof.
  split; [reflexivity |]. split; [simpl; auto |]. split; [reflexivity |].
  destruct (synthesize_voice_data_failure (H := Samples.tts_host)
              (Samples.request "hi" (Some "Vinh"))
              (Samples.tts_world (Some Samples.engine)) Samples.engine
              "voice file missing"
              eq_refl (or_intror (or_introl eq_refl)) (or_introl eq_refl))
    as (w' & Hrun & _ & Hinfer).
  exists w'. split; [exact Hrun | exact Hinfer].
Defined.

(** The text ["hi"] on a host whose encoder refuses every waveform. *)
Lemma synthesize_encoder_failure_witness :
  tts (Samples.tts_world (Some Samples.engine)) = Some Samples.engine /\
  In "Doan" ["Doan"; "Vinh"] /\
  run_infer Samples.engine "hi" [1; 2; 3] "xin chao" 1 256 = inr (Some [0%Q; 0%Q]) /\
  sf_write (Host := Samples.tts_host_mute) [0%Q; 0%Q] 24000
  = inl "Error opening buffer: format not recognised" /\
  exists w',
    synthesize (H := Samples.tts_host_mute) (Samples.request "hi" None)
      (Samples.tts_world (Some Samples.engine))
    = (inl (HTTPException 500
              "Synthesis failed: Error opening buffer: format not recognised"), w') /\
    infer_calls w' = 1%nat.
Proof.
  split; [reflexivity |]. split; [simpl; auto |].
  split; [reflexivity |]. split; [reflexivity |].
  destruct (synthesize_encoder_failure (H := Samples.tts_host_mute)
              (Samples.request "hi" None)
              (Samples.tts_world (Some Samples.engine)) Samples.engine
              Samples.doan [1; 2; 3] "xin chao" [0%Q; 0%Q]
              "Error opening buffer: format not recognised"
              eq_refl (or_introl eq_refl) eq_refl eq_refl eq_refl eq_refl
              ltac:(discriminate) eq_refl)
    as (w' & Hrun & _ & Hinfer).
  exists w'. split; [exact Hrun | exact Hinfer].
Defined.

(** The text ["hi"] in a world whose clock stands still. *)
Lemma synthesize_zero_elapsed_witness :
  tts (Samples.tts_frozen_world (Some Samples.engine)) = Some Samples.engine /\
  (clock (Samples.tts_frozen_world (Some Samples.engine)) 1
   == clock (Samples.tts_frozen_world (Some Samples.engine)) 0)%Q /\
  sf_write (Host := Samples.tts_host) [0%Q; 0%Q] 24000 = inr [0; 0] /\
  status_of (fst (synthesize (H := Samples.tts_host) (Samples.request "hi" None)
                    (Samples.tts_frozen_world (Some Samples.engine)))) = 500.
Proof.
  split; [reflexivity |]. split; [reflexivity |]. split; [reflexivity |].
  destruct (synthesize_zero_elapsed (H := Samples.tts_host)
              (Samples.request "hi" None)
              (Samples.tts_frozen_world (Some Samples.engine)) Samples.engine
              Samples.doan [1; 2; 3] "xin chao" [0%Q; 0%Q] [0; 0]
              eq_refl (or_introl eq_refl) eq_refl eq_refl eq_refl eq_refl
              ltac:(discriminate) eq_refl ltac:(reflexivity))
    as (cause & w' & Hrun & _).
  rewrite Hrun. reflexivity.
Defined.

(** The two presets of the sample engine. *)
Lemma list_voices_calls_witness :
  tts (Samples.tts_world (Some Samples.engine)) = Some Samples.engine /\
  calls (snd (list_voices (Samples.tts_world (Some Samples.engine))))
  = [CallListPresetVoices; CallGetPresetVoice "Doan"; CallGetPresetVoice "Vinh"].
Proof.
  split; [reflexivity |].
  exact (proj1 (list_voices_calls (Samples.tts_world (Some Samples.engine))
                  Samples.engine eq_refl)).
Defined.

(** A request that arrives before the model is loaded. *)
Lemma endpoints_before_load_witness :
  tts (Samples.tts_world None) = None /\
  synthesize (H := Samples.tts_host) (Samples.request "hi" None) (Samples.tts_world None)
  = (inl (HTTPException 503 "Model not loaded yet"), Samples.tts_world None).
Proof.
  split; [reflexivity |].
  exact (proj1 (endpoints_before_load (H := Samples.tts_host)
                  (Samples.request "hi" None) (Samples.tts_world None) eq_refl)).
Defined.

End TtsRuns.

(** ** The transcription handler, exit by exit *)

Module WhisperRuns.
Import Whisper WhisperProofs.

Section Service.
Context `{Host}.

Local Abbreviation lang_of language :=
  (if String.eqb language%string "auto" then None else Some language%string).

(** The [try]/[except]/[finally] statement of [transcribe_api] on a state
    that holds the upload at [path], as a table over what the model
    answers. *)
Lemma transcribe_api_body_run (path language task : string) (w : World)
    (content : list Z) :
  files w !! path = Some content ->
  try_finally
    (try_except (transcribe_api_try path language task) transcribe_api_except)
    (os_unlink path) w =
    let w1 := record_call (CallTranscribe path (lang_of language) task true 500)
                (tick w) in
    let failed (msg : string) : (PyExc + Transcription) * World :=
      (inl (HTTPException 500 msg),
       set_files (delete path (files w))
         (record_log (LogError ("STT error: " ++ msg)) w1)) in
    match run_transcribe (model w) (Some content) (lang_of language) task with
    | inl msg => failed msg
    | inr (segments, info) =>
        match failure segments with
        | Some msg => failed msg
        | None =>
            let elapsed := (clock w (S (ticks w)) - clock w (ticks w))%Q in
            (inr {| r_text := join " " (map (fun seg => strip (text seg))
                                            (yielded segments));
                    r_segments :=
                      map (fun seg => {| d_start := round (start seg) 2;
                                         d_end := round (end_ seg) 2;
                                         d_text := strip (text seg) |})
                          (yielded segments);
                    r_language := Whisper.language info;
                    r_language_probability := round (language_probability info) 3;
                    r_duration := round (duration info) 2;
                    r_process_time := round elapsed 2 |},
             set_files (delete path (files w))
               (record_log
                  (LogInfo ("STT: lang=" ++ Whisper.language info
                            ++ ", audio=" ++ format_f 1 (duration info)
                            ++ "s, time=" ++ format_f 1 elapsed
                            ++ "s, segments="
                            ++ pretty (length (yielded segments))))
                  (tick w1)))
        end
    end.
Proof.
  intros Hfile.
  unfold try_finally, try_except, transcribe_api_try.
  unfold bind at 1. unfold time at 1. unfold bind at 1, get at 1, modify at 1, ret at 1.
  unfold bind at 1. unfold bind at 1. cbn [fst snd].
  unfold bind at 1. rewrite do_transcribe_run. cbv zeta.
  cbn [tick model files clock ticks]. rewrite Hfile.
  unfold os_unlink, bind, get, modify.
  destruct (run_transcribe _ _ _ _) as [msg | [segments info]].
  - cbn. rewrite Hfile. reflexivity.
  - destruct (failure segments) as [msg |].
    + cbn. rewrite Hfile. reflexivity.
    + cbn. rewrite Hfile, length_map. reflexivity.
Qed.

(** [transcribe_api] from entry to exit, once the upload is stored. *)
Lemma transcribe_api_stored (file : UploadFile) (language task : option string)
    (w : World) (path : string) (content : list Z) :
  tmp_name (splitext_ext (or_default (filename file) "audio.wav")) = inr path ->
  read file = inr content ->
  tmp_write_error path content = None ->
  transcribe_api file language task w =
    try_finally
      (try_except
         (transcribe_api_try path (field_or language "vi") (field_or task "transcribe"))
         transcribe_api_except)
      (os_unlink path)
      (set_files (<[path := content]> (<[path := []]> (files w))) w) /\
  files (set_files (<[path := content]> (<[path := []]> (files w))) w) !! path
  = Some content.
Proof.
  intros Hname Hread Hwrite.
  rewrite transcribe_api_upload, Hname. cbv zeta. rewrite Hread, Hwrite.
  split; [reflexivity | cbn; apply lookup_insert_eq].
Qed.

(** X14: once the upload is stored, a model that raises, on the call or while
    its segments are iterated, ends the request with status 500 and the
    model's message as detail; the error is logged and the upload is
    removed. *)
Theorem transcribe_api_model_failure (file : UploadFile) (language task : option string)
    (w : World) (path : string) (content : list Z) (msg : string) :
  tmp_name (splitext_ext (or_default (filename file) "audio.wav")) = inr path ->
  read file = inr content ->
  tmp_write_error path content = None ->
  (run_transcribe (model w) (Some content) (lang_of (field_or language "vi"))
     (field_or task "transcribe") = inl msg \/
   exists segments info,
     run_transcribe (model w) (Some content) (lang_of (field_or language "vi"))
       (field_or task "transcribe") = inr (segments, info) /\
     failure segments = Some msg) ->
  exists w',
    transcribe_api file language task w = (inl (HTTPException 500 msg), w') /\
    logs w' = (logs w ++ [LogError ("STT error: " ++ msg)])%list /\
    files w' !! path = None.
Proof.
  intros Hname Hread Hwrite Hfail.
  destruct (transcribe_api_stored file language task w path content Hname Hread Hwrite)
    as (-> & Hfile).
  rewrite (transcribe_api_body_run _ _ _ _ content Hfile). cbv zeta.
  cbn [model set_files].
  destruct Hfail as [-> | (segments & info & -> & ->)];
    (eexists; split; [reflexivity |]; split; [reflexivity |]);
    cbn; apply lookup_delete_eq.
Qed.

(** X15: A successful answer reports what the model reported for the uploaded
    bytes: the detected language as is, its probability rounded to 3
    decimals, the duration to 2, the time between the two clock readings to
    2, and one segment per segment the model yielded; for a model that
    yields nothing, the text is empty and so is the list. *)
Theorem transcribe_api_answer (file : UploadFile) (language task : option string)
    (w w' : World) (resp : Transcription) :
  transcribe_api file language task w = (inr resp, w') ->
  exists content segments info,
    read file = inr content /\
    run_transcribe (model w) (Some content) (lang_of (field_or language "vi"))
      (field_or task "transcribe") = inr (segments, info) /\
    r_language resp = Whisper.language info /\
    r_language_probability resp = round (language_probability info) 3 /\
    r_duration resp = round (duration info) 2 /\
    r_process_time resp = round (clock w (S (ticks w)) - clock w (ticks w)) 2 /\
    length (r_segments resp) = length (yielded segments) /\
    (yielded segments = [] -> r_text resp = "" /\ r_segments resp = []).
Proof.
  rewrite transcribe_api_upload.
  destruct (tmp_name _) as [msg | path] eqn:Hname; [discriminate |]. cbv zeta.
  destruct (read file) as [msg | content] eqn:Hread; [discriminate |].
  destruct (tmp_write_error path content) eqn:Hwrite; [discriminate |].
  rewrite (transcribe_api_body_run _ _ _ _ content) by (cbn; apply lookup_insert_eq).
  cbv zeta. cbn [model set_files clock ticks].
  destruct (run_transcribe _ _ _ _) as [msg | [segments info]] eqn:Hcall;
    [discriminate |].
  destruct (failure segments) as [msg |]; [discriminate |].
  intros [= <- _].
  exists content, segments, info. cbn.
  repeat (split; [first [reflexivity | assumption] |]).
  split; [apply length_map |].
  intros ->. split; reflexivity.
Qed.

(** X16: every exit of the handler is an answer or a status 500, and a request
    makes at most one call to the model. *)
Theorem transcribe_api_status_codes (file : UploadFile) (language task : option string)
    (w : World) :
  (Tts.status_of (fst (transcribe_api file language task w)) = 200 \/
   Tts.status_of (fst (transcribe_api file language task w)) = 500) /\
  (length (calls (snd (transcribe_api file language task w)))
   <= S (length (calls w)))%nat.
Proof.
  rewrite transcribe_api_upload.
  destruct (tmp_name _) as [msg | path]; [cbn; split; [tauto | lia] |]. cbv zeta.
  destruct (read file) as [msg | content]; [cbn; split; [tauto | lia] |].
  destruct (tmp_write_error path content); [cbn; split; [tauto | lia] |].
  rewrite (transcribe_api_body_run _ _ _ _ content) by (cbn; apply lookup_insert_eq).
  cbv zeta. cbn [model set_files].
  destruct (run_transcribe _ _ _ _) as [msg | [segments info]];
    [| destruct (failure segments)];
    cbn; rewrite length_app; cbn; (split; [tauto | lia]).
Qed.

(** X17: when the temporary file cannot be created, or the upload cannot be
    received or written, the handler exits with that exception as it is: the
    model is not called and nothing is logged. *)
Theorem transcribe_api_upload_failure_skips_model (file : UploadFile)
    (language task : option string) (w : World) (msg : string) :
  (tmp_name (splitext_ext (or_default (filename file) "audio.wav")) = inl msg \/
   exists path,
     tmp_name (splitext_ext (or_default (filename file) "audio.wav")) = inr path /\
     (read file = inl msg \/
      exists content, read file = inr content /\
                      tmp_write_error path content = Some msg)) ->
  exists w',
    transcribe_api file language task w = (inl (Exception msg), w') /\
    calls w' = calls w /\
    logs w' = logs w /\
    (tmp_name (splitext_ext (or_default (filename file) "audio.wav")) = inl msg ->
     w' = w).
Proof.
  intros Hfail. rewrite transcribe_api_upload.
  destruct Hfail as [Hname | (path & Hname & [Hread | (content & Hread & Hwrite)])];
    rewrite Hname; cbv zeta; rewrite ?Hread, ?Hwrite;
    (eexists; split; [reflexivity |]; split; [reflexivity |]; split; [reflexivity |]);
    intros; congruence.
Qed.

(** X18: the disk after a request.  No file other than the temporary one is
    touched, on any exit; and when the upload was stored at a path that was
    free, the files after the request are the files before it. *)
Theorem transcribe_api_disk (file : UploadFile) (language task : option string)
    (w : World) :
  (forall p,
     tmp_name (splitext_ext (or_default (filename file) "audio.wav")) <> inr p ->
     files (snd (transcribe_api file language task w)) !! p = files w !! p) /\
  (forall path content,
     tmp_name (splitext_ext (or_default (filename file) "audio.wav")) = inr path ->
     read file = inr content ->
     tmp_write_error path content = None ->
     files w !! path = None ->
     files (snd (transcribe_api file language task w)) = files w).
Proof.
  split.
  - intros p Hp. rewrite transcribe_api_upload.
    destruct (tmp_name _) as [msg | path]; [reflexivity |]. cbv zeta.
    assert (path <> p) as Hne by congruence.
    destruct (read file) as [msg | content];
      [cbn; now apply lookup_insert_ne |].
    destruct (tmp_write_error path content);
      [cbn; now apply lookup_insert_ne |].
    rewrite (transcribe_api_body_run _ _ _ _ content) by (cbn; apply lookup_insert_eq).
    cbv zeta. cbn [model set_files].
    destruct (run_transcribe _ _ _ _) as [msg | [segments info]];
      [| destruct (failure segments)];
      cbn; rewrite lookup_delete_ne, !lookup_insert_ne by assumption; reflexivity.
  - intros path content Hname Hread Hwrite Hfree.
    destruct (transcribe_api_stored file language task w path content Hname Hread Hwrite)
      as (-> & Hfile).
    rewrite (transcribe_api_body_run _ _ _ _ content Hfile). cbv zeta.
    cbn [model set_files].
    destruct (run_transcribe _ _ _ _) as [msg | [segments info]];
      [| destruct (failure segments)];
      cbn; rewrite !delete_insert_eq; now apply delete_id.
Qed.

Section Ui.
Variable format_percent : Q -> string.

(** [transcribe_ui] on a file, as a table over what the model answers. *)
Lemma transcribe_ui_run (path : string) (language task : option string) (w : World) :
  WhisperUi.transcribe_ui format_percent (Some path) language task w =
    let w1 := record_call
                (CallTranscribe path (lang_of (field_or language "vi"))
                   (field_or task "transcribe") true 500) (tick w) in
    match run_transcribe (model w) (files w !! path) (lang_of (field_or language "vi"))
            (field_or task "transcribe") with
    | inl msg => (inl (Exception msg), w1)
    | inr (segments, info) =>
        match failure segments with
        | Some msg => (inl (Exception msg), w1)
        | None =>
            let elapsed := (clock w (S (ticks w)) - clock w (ticks w))%Q in
            (inr ("🎯 Ngôn ngữ: " ++ Whisper.language info
                  ++ " (xác suất: " ++ format_percent (language_probability info)
                  ++ ")" ++ WhisperUi.newline
                  ++ "⏱️ Thời gian: " ++ format_f 1 elapsed
                  ++ "s | Độ dài audio: " ++ format_f 1 (duration info) ++ "s"
                  ++ WhisperUi.newline
                  ++ WhisperUi.repeat_str "─" 50 ++ WhisperUi.newline
                  ++ join WhisperUi.newline
                       (map (fun seg =>
                               "[" ++ format_f 1 (round (start seg) 2) ++ "s → "
                               ++ format_f 1 (round (end_ seg) 2) ++ "s]  "
                               ++ strip (text seg))
                            (yielded segments)),
                  join " " (map (fun seg => strip (text seg)) (yielded segments))),
             tick w1)
        end
    end.
Proof.
  unfold WhisperUi.transcribe_ui.
  unfold bind at 1. unfold time at 1. unfold bind at 1, get at 1, modify at 1, ret at 1.
  unfold bind at 1. unfold bind at 1. cbn [fst snd].
  unfold bind at 1. rewrite do_transcribe_run. cbv zeta.
  cbn [tick model files clock ticks].
  destruct (run_transcribe _ _ _ _) as [msg | [segments info]]; [reflexivity |].
  destruct (failure segments) as [msg |]; [reflexivity |].
  unfold bind, time, get, modify, ret. cbn. rewrite map_map. cbn.
  rewrite !TtsProofs.append_assoc. reflexivity.
Qed.

(** X19: the plain text the UI shows is the text the API answers: for the same
    model, language and task, on a file holding the bytes of the upload,
    whenever both succeed. *)
Theorem transcribe_ui_agrees_with_api (path : string) (file : UploadFile)
    (language task : option string) (content : list Z)
    (w_ui w_ui' w_api w_api' : World) (detail plain : string) (resp : Transcription) :
  model w_ui = model w_api ->
  files w_ui !! path = Some content ->
  read file = inr content ->
  WhisperUi.transcribe_ui format_percent (Some path) language task w_ui
  = (inr (detail, plain), w_ui') ->
  transcribe_api file language task w_api = (inr resp, w_api') ->
  plain = r_text resp.
Proof.
  intros Hmodel Hfile Hread Hui Hapi.
  destruct (transcribe_api_success _ _ _ _ _ _ Hapi)
    as (content' & segments & info & Hread' & Hcall & _ & -> & _).
  rewrite Hread in Hread'. injection Hread' as <-.
  rewrite transcribe_ui_run in Hui. cbv zeta in Hui.
  rewrite Hfile, Hmodel, Hcall in Hui.
  destruct (failure segments); [discriminate |].
  now injection Hui as _ <- _.
Qed.

(** X20: the edges of the UI callback.  Without audio it returns its prompt and
    an empty text, and leaves the state alone: the model is not called.  With
    a file on which the model raises, on the call or while its segments are
    iterated, the exception leaves the callback as it is, unmapped and
    unlogged. *)
Theorem transcribe_ui_edges (language task : option string) (w : World) :
  WhisperUi.transcribe_ui format_percent None language task w
  = (inr ("⚠️ Vui lòng upload hoặc ghi âm audio.", ""), w) /\
  (forall path msg,
     (run_transcribe (model w) (files w !! path) (lang_of (field_or language "vi"))
        (field_or task "transcribe") = inl msg \/
      exists segments info,
        run_transcribe (model w) (files w !! path) (lang_of (field_or language "vi"))
          (field_or task "transcribe") = inr (segments, info) /\
        failure segments = Some msg) ->
     fst (WhisperUi.transcribe_ui format_percent (Some path) language task w)
     = inl (Exception msg) /\
     logs (snd (WhisperUi.transcribe_ui format_percent (Some path) language task w))
     = logs w).
Proof.
  split; [reflexivity |].
  intros path msg Hfail. rewrite transcribe_ui_run. cbv zeta.
  destruct Hfail as [-> | (segments & info & -> & ->)]; split; reflexivity.
Qed.

End Ui.
End Service.

(** A stored upload on a recogniser that raises on every file. *)
Lemma transcribe_api_model_failure_witness :
  run_transcribe Samples.deaf_recogniser (Some [1; 2]) (Some "vi") "transcribe"
  = inl "CUDA out of memory" /\
  exists w',
    transcribe_api (H := Samples.whisper_host) (Samples.upload [1; 2]) None None
      (Samples.whisper_world_with Samples.deaf_recogniser ∅)
    = (inl (HTTPException 500 "CUDA out of memory"), w') /\
    files w' !! "/tmp/tmpk3x9.wav" = None.
Proof.
  split; [reflexivity |].
  destruct (transcribe_api_model_failure (H := Samples.whisper_host)
              (Samples.upload [1; 2]) None None
              (Samples.whisper_world_with Samples.deaf_recogniser ∅)
              "/tmp/tmpk3x9.wav" [1; 2] "CUDA out of memory"
              eq_refl eq_refl eq_refl (or_introl eq_refl))
    as (w' & Hrun & _ & Hfiles).
  exists w'. split; [exact Hrun | exact Hfiles].
Defined.

(** A two-byte upload heard as two segments. *)
Lemma transcribe_api_answer_witness :
  transcribe_api (H := Samples.whisper_host) (Samples.upload [1; 2]) None None
    Samples.whisper_world
  = (inr Samples.answer,
     snd (transcribe_api (H := Samples.whisper_host) (Samples.upload [1; 2]) None None
            Samples.whisper_world)) /\
  length (r_segments Samples.answer) = 2%nat.
Proof.
  assert (transcribe_api (H := Samples.whisper_host) (Samples.upload [1; 2]) None None
            Samples.whisper_world
          = (inr Samples.answer,
             snd (transcribe_api (H := Samples.whisper_host) (Samples.upload [1; 2])
                    None None Samples.whisper_world))) as Hrun
    by (vm_compute; reflexivity).
  split; [exact Hrun |].
  destruct (transcribe_api_answer (H := Samples.whisper_host) _ _ _ _ _ _ Hrun)
    as (content & segments & info & Hread & Hcall & _ & _ & _ & _ & Hlen & _).
  injection Hread as <-. injection Hcall as <- _.
  exact Hlen.
Defined.

(** A host on which no temporary file can be created. *)
Lemma transcribe_api_upload_failure_skips_model_witness :
  tmp_name (Host := Samples.whisper_host_readonly)
    (splitext_ext (Host := Samples.whisper_host_readonly)
       (or_default (filename (Samples.upload [1; 2])) "audio.wav"))
  = inl "[Errno 30] Read-only file system" /\
  transcribe_api (H := Samples.whisper_host_readonly) (Samples.upload [1; 2]) None None
    Samples.whisper_world
  = (inl (Exception "[Errno 30] Read-only file system"), Samples.whisper_world).
Proof.
  split; [reflexivity |].
  destruct (transcribe_api_upload_failure_skips_model
              (H := Samples.whisper_host_readonly)
              (Samples.upload [1; 2]) None None Samples.whisper_world
              "[Errno 30] Read-only file system" (or_introl eq_refl))
    as (w' & Hrun & _ & _ & Hsame).
  rewrite Hrun, (Hsame eq_refl). reflexivity.
Defined.

(** A stored upload beside a file that was already on disk. *)
Lemma transcribe_api_disk_witness :
  files (Samples.whisper_world_with Samples.recogniser {["/data/keep.wav" := [7]]})
    !! "/tmp/tmpk3x9.wav" = None /\
  files (snd (transcribe_api (H := Samples.whisper_host) (Samples.upload [1; 2])
                None None
                (Samples.whisper_world_with Samples.recogniser
                   {["/data/keep.wav" := [7]]})))
  = {["/data/keep.wav" := [7]]}.
Proof.
  assert (files (Samples.whisper_world_with Samples.recogniser
                   {["/data/keep.wav" := [7]]})
            !! "/tmp/tmpk3x9.wav" = None) as Hfree by (vm_compute; reflexivity).
  split; [exact Hfree |].
  exact (proj2 (transcribe_api_disk (H := Samples.whisper_host)
                  (Samples.upload [1; 2]) None None
                  (Samples.whisper_world_with Samples.recogniser
                     {["/data/keep.wav" := [7]]}))
           "/tmp/tmpk3x9.wav" [1; 2] eq_refl eq_refl eq_refl Hfree).
Defined.

(** The same two bytes, as a file given to the UI and as an upload given
    to the API. *)
Lemma transcribe_ui_agrees_with_api_witness :
  files (Samples.whisper_world_with Samples.recogniser {["/data/a.wav" := [1; 2]]})
    !! "/data/a.wav" = Some [1; 2] /\
  fst (WhisperUi.transcribe_ui (H := Samples.whisper_host) Samples.percent
         (Some "/data/a.wav") None None
         (Samples.whisper_world_with Samples.recogniser {["/data/a.wav" := [1; 2]]}))
  = inr (match fst (WhisperUi.transcribe_ui (H := Samples.whisper_host) Samples.percent
                      (Some "/data/a.wav") None None
                      (Samples.whisper_world_with Samples.recogniser
                         {["/data/a.wav" := [1; 2]]})) with
         | inr (detail, _) => detail
         | inl _ => ""
         end, "xin chao cac ban") /\
  "xin chao cac ban" = r_text Samples.answer.
Proof.
  assert (files (Samples.whisper_world_with Samples.recogniser
                   {["/data/a.wav" := [1; 2]]})
            !! "/data/a.wav" = Some [1; 2]) as Hfile by (vm_compute; reflexivity).
  assert (WhisperUi.transcribe_ui (H := Samples.whisper_host) Samples.percent
            (Some "/data/a.wav") None None
            (Samples.whisper_world_with Samples.recogniser {["/data/a.wav" := [1; 2]]})
          = (inr (match fst (WhisperUi.transcribe_ui (H := Samples.whisper_host)
                               Samples.percent (Some "/data/a.wav") None None
                               (Samples.whisper_world_with Samples.recogniser
                                  {["/data/a.wav" := [1; 2]]})) with
                  | inr (detail, _) => detail
                  | inl _ => ""
                  end, "xin chao cac ban"),
             snd (WhisperUi.transcribe_ui (H := Samples.whisper_host) Samples.percent
                    (Some "/data/a.wav") None None
                    (Samples.whisper_world_with Samples.recogniser
                       {["/data/a.wav" := [1; 2]]})))) as Hui
    by (vm_compute; reflexivity).
  assert (transcribe_api (H := Samples.whisper_host) (Samples.upload [1; 2]) None None
            Samples.whisper_world
          = (inr Samples.answer,
             snd (transcribe_api (H := Samples.whisper_host) (Samples.upload [1; 2])
                    None None Samples.whisper_world))) as Hapi
    by (vm_compute; reflexivity).
  split; [exact Hfile |].
  split; [now rewrite Hui |].
  apply (transcribe_ui_agrees_with_api (H := Samples.whisper_host) Samples.percent)
    with (path := "/data/a.wav") (file := Samples.upload [1; 2])
         (language := None) (task := None) (content := [1; 2])
         (w_ui := Samples.whisper_world_with Samples.recogniser
                    {["/data/a.wav" := [1; 2]]})
         (w_api := Samples.whisper_world)
         (w_ui' := snd (WhisperUi.transcribe_ui (H := Samples.whisper_host)
                          Samples.percent (Some "/data/a.wav") None None
                          (Samples.whisper_world_with Samples.recogniser
                             {["/data/a.wav" := [1; 2]]})))
         (w_api' := snd (transcribe_api (H := Samples.whisper_host)
                           (Samples.upload [1; 2]) None None Samples.whisper_world))
         (detail := match fst (WhisperUi.transcribe_ui (H := Samples.whisper_host)
                                 Samples.percent (Some "/data/a.wav") None None
                                 (Samples.whisper_world_with Samples.recogniser
                                    {["/data/a.wav" := [1; 2]]})) with
                    | inr (detail, _) => detail
                    | inl _ => ""
                    end);
    [reflexivity | exact Hfile | reflexivity | exact Hui | exact Hapi].
Defined.

(** A file given to the UI on a recogniser whose iteration raises after
    one segment. *)
Lemma transcribe_ui_edges_witness :
  failure (fst (match run_transcribe Samples.stuttering_recogniser None (Some "vi")
                        "transcribe" with
                | inr r => r
                | inl _ => ({| yielded := []; failure := None |},
                            {| language := ""; language_probability := 0;
                               duration := 0 |})
                end)) = Some "decoder failed" /\
  fst (WhisperUi.transcribe_ui (H := Samples.whisper_host) Samples.percent
         (Some "/data/a.wav") None None
         (Samples.whisper_world_with Samples.stuttering_recogniser ∅))
  = inl (Exception "decoder failed").
Proof.
  split; [reflexivity |].
  exact (proj1 (proj2 (transcribe_ui_edges (H := Samples.whisper_host) Samples.percent
                         None None
                         (Samples.whisper_world_with Samples.stuttering_recogniser ∅))
                  "/data/a.wav" "decoder failed"
                  (or_intror (ex_intro _ _ (ex_intro _ _ (conj eq_refl eq_refl)))))).
Defined.

End WhisperRuns.

(** ** The synthesis service when the calls outside the [try] raise *)

Module TtsFaultsRuns.
Import Tts.

Section Service.
Context `{Host}.
Variable faults : TtsFaults.Faults.

(** While the enumeration returns, the handler is the one studied above. *)
Lemma synthesize_without_fault (req : TTSRequest) (w : World) :
  TtsFaults.list_preset_voices_error faults = None ->
  TtsFaults.synthesize faults req w = synthesize req w.
Proof.
  intros Hnone.
  unfold TtsFaults.synthesize, synthesize, bind, get.
  destruct (tts w) as [t |]; [| reflexivity].
  unfold TtsFaults.list_preset_voices, list_preset_voices, bind, modify.
  rewrite Hnone. reflexivity.
Qed.

Lemma list_voices_without_fault (w : World) :
  TtsFaults.list_preset_voices_error faults = None ->
  TtsFaults.list_voices faults w = list_voices w.
Proof.
  intros Hnone.
  unfold TtsFaults.list_voices, list_voices, bind, get.
  destruct (tts w) as [t |]; [| reflexivity].
  unfold TtsFaults.list_preset_voices, list_preset_voices, bind, modify.
  rewrite Hnone. reflexivity.
Qed.

(** An enumeration that raises ends both endpoints on the spot, with its
    own exception. *)
Lemma enumeration_fault (req : TTSRequest) (w : World) (msg : string) :
  TtsFaults.list_preset_voices_error faults = Some msg ->
  TtsFaults.synthesize faults req w =
    match tts w with
    | Some _ => (inl (Exception msg), record_call CallListPresetVoices w)
    | None => (inl (HTTPException 503 "Model not loaded yet"), w)
    end /\
  TtsFaults.list_voices faults w =
    match tts w with
    | Some _ => (inl (Exception msg), record_call CallListPresetVoices w)
    | None => (inl (HTTPException 503 "Model not loaded yet"), w)
    end.
Proof.
  intros Hsome.
  unfold TtsFaults.synthesize, TtsFaults.list_voices, bind, get.
  destruct (tts w) as [t |]; [| split; reflexivity].
  unfold TtsFaults.list_preset_voices, bind, modify.
  rewrite Hsome. split; reflexivity.
Qed.

(** X1: the handler answers with status 200, 400, 500 or 503.  Every
    error raised inside its [try] leaves as an [HTTPException]; the one
    exception that leaves it unmapped is the one [list_preset_voices]
    raises, called on a loaded model before the [try]. *)
Theorem synthesize_exit_statuses (req : TTSRequest) (w : World) :
  (status_of (fst (TtsFaults.synthesize faults req w)) = 200 \/
   status_of (fst (TtsFaults.synthesize faults req w)) = 400 \/
   status_of (fst (TtsFaults.synthesize faults req w)) = 500 \/
   status_of (fst (TtsFaults.synthesize faults req w)) = 503) /\
  (forall msg,
     fst (TtsFaults.synthesize faults req w) = inl (Exception msg) <->
     is_Some (tts w) /\ TtsFaults.list_preset_voices_error faults = Some msg).
Proof.
  destruct (TtsFaults.list_preset_voices_error faults) as [msg0 |] eqn:Herr.
  - destruct (enumeration_fault req w msg0 Herr) as (-> & _).
    destruct (tts w) as [t |]; cbn.
    + split; [tauto |]. intros msg. split.
      * intros [= ->]. split; [eauto | reflexivity].
      * intros (_ & [= ->]). reflexivity.
    + split; [tauto |]. intros msg. split; [discriminate |].
      intros ([? [=]] & _).
  - rewrite (synthesize_without_fault req w Herr).
    destruct (TtsRuns.synthesize_status_codes req w) as (Hstatus & Hraw).
    split; [exact Hstatus |].
    intros msg. split; [intros Hexc; now apply Hraw in Hexc | intros (_ & [=])].
Qed.

(** X9: what a request leaves in the log: one info record for an answer
    with audio; one error record, carrying the same message as the detail,
    for a failure reported as "Synthesis failed"; nothing for an unknown
    voice, a model not yet loaded, an empty waveform, or an enumeration of
    the presets that raises, whose exception leaves the handler as it is. *)
Theorem synthesize_log_records (req : TTSRequest) (w : World) :
  match fst (TtsFaults.synthesize faults req w) with
  | inr _ =>
      exists line,
        logs (snd (TtsFaults.synthesize faults req w)) = (logs w ++ [LogInfo line])%list
  | inl (HTTPException code detail) =>
      (exists cause,
         code = 500 /\ detail = "Synthesis failed: " ++ cause /\
         logs (snd (TtsFaults.synthesize faults req w))
         = (logs w ++ [LogError ("TTS error: " ++ cause)])%list) \/
      (logs (snd (TtsFaults.synthesize faults req w)) = logs w /\
       (code = 400 \/ code = 503 \/
        (code = 500 /\ detail = "Failed to generate audio")))
  | inl (Exception msg) =>
      TtsFaults.list_preset_voices_error faults = Some msg /\
      logs (snd (TtsFaults.synthesize faults req w)) = logs w
  end.
Proof.
  destruct (TtsFaults.list_preset_voices_error faults) as [msg0 |] eqn:Herr.
  - destruct (enumeration_fault req w msg0 Herr) as (-> & _).
    destruct (tts w) as [t |]; cbn.
    + split; reflexivity.
    + right. split; [reflexivity | tauto].
  - rewrite (synthesize_without_fault req w Herr).
    pose proof (TtsRuns.synthesize_logging req w) as Hlog.
    destruct (fst (synthesize req w)) as [[code detail | msg] | resp];
      [exact Hlog | contradiction | exact Hlog].
Qed.

(** X21: [GET /api/voices] ends in one of three ways: the list, for a
    loaded model whose enumeration returns; 503 before the model is loaded;
    and, unmapped, the exception [list_preset_voices] raises.  The lookups
    of the single presets never end it. *)
Theorem list_voices_exits (w : World) :
  match fst (TtsFaults.list_voices faults w) with
  | inr voices =>
      exists t, tts w = Some t /\
                TtsFaults.list_preset_voices_error faults = None /\
                length voices = length (presets t)
  | inl (HTTPException code detail) =>
      tts w = None /\ code = 503 /\ detail = "Model not loaded yet"
  | inl (Exception msg) =>
      is_Some (tts w) /\ TtsFaults.list_preset_voices_error faults = Some msg
  end.
Proof.
  destruct (TtsFaults.list_preset_voices_error faults) as [msg0 |] eqn:Herr.
  - destruct (enumeration_fault (Samples.request "" None) w msg0 Herr) as (_ & ->).
    destruct (tts w) as [t |]; cbn; repeat split; eauto.
  - rewrite (list_voices_without_fault w Herr).
    unfold list_voices, bind, get.
    destruct (tts w) as [t |] eqn:Ht; [| cbn; repeat split].
    unfold list_preset_voices, bind, modify, ret. cbn [fst snd].
    destruct (TtsProofs.list_voices_loop_spec t (presets t) []
                (record_call CallListPresetVoices w)) as (w' & ->).
    cbn. exists t. repeat split. now rewrite length_map.
Qed.

(** [lifespan_shutdown], outcome and state. *)
Lemma lifespan_shutdown_run (w : World) :
  TtsFaults.lifespan_shutdown faults w =
    let w0 := record_log (LogInfo "Shutting down, releasing model...") w in
    match tts w with
    | Some _ =>
        (match TtsFaults.close_error faults with
         | Some msg => inl (Exception msg)
         | None => inr tt
         end, record_call CallClose w0)
    | None => (inr tt, w0)
    end.
Proof.
  unfold TtsFaults.lifespan_shutdown, TtsFaults.close, bind, logger_info,
    modify, get, ret, raise.
  cbn [fst snd]. cbn.
  destruct (tts w); [| reflexivity].
  destruct (TtsFaults.close_error faults); reflexivity.
Qed.

(** X13: shut-down calls [close] once when there is a handle and not at
    all otherwise; it raises exactly when [close] does, with the same
    exception; and it does not clear the global, so a second run calls
    [close] on the same handle again. *)
Theorem lifespan_shutdown_close_once (w : World) :
  fst (TtsFaults.lifespan_shutdown faults w)
  = match tts w, TtsFaults.close_error faults with
    | Some _, Some msg => inl (Exception msg)
    | _, _ => inr tt
    end /\
  tts (snd (TtsFaults.lifespan_shutdown faults w)) = tts w /\
  calls (snd (TtsFaults.lifespan_shutdown faults w))
  = (calls w ++ match tts w with Some _ => [CallClose] | None => [] end)%list /\
  calls (snd (TtsFaults.lifespan_shutdown faults
                (snd (TtsFaults.lifespan_shutdown faults w))))
  = (calls w ++ match tts w with
                | Some _ => [CallClose; CallClose]
                | None => []
                end)%list.
Proof.
  rewrite !lifespan_shutdown_run. cbv zeta.
  destruct (tts w) as [t |] eqn:Ht; cbn; rewrite ?Ht; cbn.
  - repeat split; try assumption. now rewrite <- app_assoc.
  - repeat split; try assumption; now rewrite app_nil_r.
Qed.

End Service.
End TtsFaultsRuns.
